(** * Twilio SMS webhook server: ingestion handler and audit trail

    A shallow embedding of [src/server.js]: the catch-all Fastify route that
    recognises Twilio callbacks by their headers, validates the signature,
    derives a hashed identifier with Argon2, and stores one audit row and one
    message row inside a single better-sqlite3 transaction.

    Layout: the data model and the operations come first (JavaScript values,
    header handling, the Argon2 output format, the database, the handler),
    then the lemmas about them. *)

From Stdlib Require Import ZArith QArith_base Ascii String DecimalString List Lia.
From stdpp Require Import base gmap strings list.

Set Warnings "-register-all".

(** ** JavaScript values *)

(** The values the handler manipulates.  A number is kept as the rational it
    denotes (the handler only produces [0], [1] and a clock reading, and never
    does arithmetic on what it reads from a body).  An object is the list of
    its own properties in insertion order, the order [JSON.stringify] walks. *)
Inductive jsval : Type :=
| JUndefined
| JNull
| JBool (b : bool)
| JNum (x : Q)
| JStr (s : string)
| JArr (items : list jsval)
| JObj (props : list (string * jsval)).

(** What a [throw] carries.  Only the kind matters to the handler. *)
Inductive exn : Type :=
| TypeError (msg : string)
| RangeError (msg : string)
| SqliteError (code : string).

(** A computation that either returns or throws. *)
Inductive result (A : Type) : Type :=
| Throw (e : exn)
| Return (a : A).
Arguments Throw {A} e.
Arguments Return {A} a.

Global Instance result_ret : MRet result := fun A a => Return a.
Global Instance result_bind : MBind result := fun A B k r =>
  match r with
  | Throw e => Throw e
  | Return a => k a
  end.

(** [o.k] (property read).  Reading a property of [undefined] or [null]
    throws; a primitive or an array has none of the property names the handler
    reads, so the read yields [undefined] there. *)
Fixpoint lookup_prop (k : string) (props : list (string * jsval)) : jsval :=
  match props with
  | [] => JUndefined
  | (k', v) :: rest => if String.eqb k k' then v else lookup_prop k rest
  end.

Definition get_prop (o : jsval) (k : string) : result jsval :=
  match o with
  | JUndefined | JNull =>
      Throw (TypeError "Cannot read properties of undefined or null")
  | JObj props => Return (lookup_prop k props)
  | _ => Return JUndefined
  end.

(** ** Strings *)

Definition dquote : ascii := "034"%char.
Definition backslash : ascii := "092"%char.

Fixpoint starts_with (pat s : string) : bool :=
  match pat with
  | EmptyString => true
  | String a pat' =>
      match s with
      | EmptyString => false
      | String b s' => if Ascii.eqb a b then starts_with pat' s' else false
      end
  end.

(** [s.indexOf(pat)]: the first position at which [pat] occurs, [-1] when it
    occurs nowhere. *)
Fixpoint indexOf_from (s pat : string) (i : Z) : Z :=
  if starts_with pat s then i
  else match s with
       | EmptyString => (-1)%Z
       | String _ s' => indexOf_from s' pat (i + 1)%Z
       end.

Definition indexOf (s pat : string) : Z := indexOf_from s pat 0%Z.

(** A number used as a condition is true unless it is zero; [~x] is
    [Z.lnot x], so [~k.indexOf(p)] is true exactly when the index is not
    [-1]. *)
Definition truthy (z : Z) : bool := negb (z =? 0)%Z.

Fixpoint join (sep : string) (l : list string) : string :=
  match l with
  | [] => ""
  | [x] => x
  | x :: rest => x +:+ sep +:+ join sep rest
  end.

Definition hex_digit (n : N) : ascii :=
  default "0"%char (String.get (N.to_nat n) "0123456789abcdef").

(** One character of a JSON string literal (QuoteJSONString). *)
Definition json_escape_char (c : ascii) : string :=
  let n := N_of_ascii c in
  if (n =? 8)%N then String backslash "b"
  else if (n =? 9)%N then String backslash "t"
  else if (n =? 10)%N then String backslash "n"
  else if (n =? 12)%N then String backslash "f"
  else if (n =? 13)%N then String backslash "r"
  else if (n =? 34)%N then String backslash (String dquote "")
  else if (n =? 92)%N then String backslash (String backslash "")
  else if (n <? 32)%N then
    String backslash
      ("u00" +:+ String (hex_digit (n / 16)) (String (hex_digit (n mod 16)) ""))
  else String c "".

Fixpoint json_escape (s : string) : string :=
  match s with
  | EmptyString => ""
  | String c s' => json_escape_char c +:+ json_escape s'
  end.

Definition json_quote (s : string) : string :=
  String dquote (json_escape s +:+ String dquote "").

(** Header names as Node hands them to the handler: in lower case. *)
Definition lower_ascii (c : ascii) : ascii :=
  let n := N_of_ascii c in
  if ((65 <=? n) && (n <=? 90))%N then ascii_of_N (n + 32) else c.

Fixpoint to_lower (s : string) : string :=
  match s with
  | EmptyString => ""
  | String c s' => String (lower_ascii c) (to_lower s')
  end.

(** ** Inbound request *)

(** [rawHeaders] is the header list as it came over the wire; [body] is what
    the body parsers produced ([undefined] when there was no body). *)
Record http_request : Type := {
  rawHeaders : list (string * string);
  body : jsval
}.

(** [request.headers], built by Node from the wire headers: names are
    lower-cased, and a repeated name has its values joined with a comma. *)
Definition add_header (h : gmap string string) (kv : string * string)
  : gmap string string :=
  let k := to_lower kv.1 in
  match h !! k with
  | Some old => <[k := old +:+ ", " +:+ kv.2]> h
  | None => <[k := kv.2]> h
  end.

Definition node_headers (raw : list (string * string)) : gmap string string :=
  foldl add_header ∅ raw.

Definition headers (req : http_request) : gmap string string :=
  node_headers (rawHeaders req).

(** [Object.keys(request.headers)]. *)
Definition header_keys (h : gmap string string) : list string :=
  (map_to_list h).*1.

(** [request.headers[k]]. *)
Definition header (h : gmap string string) (k : string) : jsval :=
  match h !! k with
  | Some v => JStr v
  | None => JUndefined
  end.

(** The test of line 113:
    [Object.keys(request.headers).some(k => ~k.indexOf('twilio'))]. *)
Definition is_twilio_request (req : http_request) : bool :=
  existsb (fun k => truthy (Z.lnot (indexOf k "twilio")))
          (header_keys (headers req)).

(** ** What the handler takes from outside the file *)

(** Options of an [argon2.hash] call.  [type] is the variant ([2] is
    Argon2id) and [hashLength] the length of the tag in bytes. *)
Record argon2_options : Type := {
  type : N;
  hashLength : N
}.

(** The library code the handler calls and the file does not contain.

    - [number_to_string] is the engine's conversion of a number to text, used
      by template literals and by [JSON.stringify].
    - [validateRequest] is [Twilio.validateRequest(authToken, signature, url,
      params)]; it answers with a boolean.
    - [argon2_raw opts salt plain] is the Argon2 tag of [plain] under [salt],
      the variant and length of [opts], and the library's default costs.
    - [argon2_costs] is the text of those default costs as it appears in an
      encoded hash (of the form m=..,t=..,p=..). *)
Class Externals : Type := {
  number_to_string : Q → string;
  validateRequest : string → jsval → string → jsval → bool;
  argon2_raw : argon2_options → list Byte.byte → string → list Byte.byte;
  argon2_costs : string
}.

(** What one request reads from the world: the clock ([new Date() / 1000]) and
    the salt that [argon2.hash], called without a [salt] option, draws afresh
    for the call. *)
Record world : Type := {
  clock : Q;
  salt : list Byte.byte
}.

(** The settings read from the environment at start-up. *)
Record config : Type := {
  TWILIO_AUTH_TOKEN : string;
  WEBHOOK_ENDPOINT : string
}.

(** ** Base64 and the encoded Argon2 hash *)

Definition b64_alphabet : string :=
  "ABCDEFGHIJKLMNOPQRSTUVWXYZabcdefghijklmnopqrstuvwxyz0123456789+/".

Definition b64_char (n : N) : ascii :=
  default "A"%char (String.get (N.to_nat n) b64_alphabet).

(** The place of a character in the alphabet. *)
Fixpoint index_in (c : ascii) (s : string) (i : N) : N :=
  match s with
  | EmptyString => i
  | String a s' => if Ascii.eqb a c then i else index_in c s' (i + 1)%N
  end.

Definition b64_index (c : ascii) : N := index_in c b64_alphabet 0%N.

(** Base64 without padding, the form used inside an encoded hash. *)
Fixpoint b64_encode (l : list Byte.byte) : string :=
  match l with
  | [] => ""
  | [a] =>
      let x := Byte.to_N a in
      String (b64_char (x / 4)) (String (b64_char (x mod 4 * 16)) "")
  | [a; b] =>
      let x := Byte.to_N a in
      let y := Byte.to_N b in
      String (b64_char (x / 4))
        (String (b64_char (x mod 4 * 16 + y / 16))
           (String (b64_char (y mod 16 * 4)) ""))
  | a :: b :: c :: rest =>
      let x := Byte.to_N a in
      let y := Byte.to_N b in
      let z := Byte.to_N c in
      String (b64_char (x / 4))
        (String (b64_char (x mod 4 * 16 + y / 16))
           (String (b64_char (y mod 16 * 4 + z / 64))
              (String (b64_char (z mod 64)) (b64_encode rest))))
  end.

Definition argon2_type_name (t : N) : string :=
  match t with
  | 0%N => "argon2d"
  | 1%N => "argon2i"
  | _ => "argon2id"
  end.

Section WithExternals.
Context `{Externals}.

(** [argon2.hash(plain, opts)] with the salt the call drew: the encoded hash
    [$<variant>$v=19$<costs>$<salt>$<tag>], salt and tag in Base64. *)
Definition argon2_hash (opts : argon2_options) (s : list Byte.byte)
  (plain : string) : string :=
  "$" +:+ argon2_type_name (type opts) +:+ "$v=19$" +:+ argon2_costs +:+ "$"
  +:+ b64_encode s +:+ "$" +:+ b64_encode (argon2_raw opts s plain).

(** ** Conversions to text *)

(** [String(v)], as a template literal applies it. *)
Fixpoint to_string (v : jsval) : string :=
  match v with
  | JUndefined => "undefined"
  | JNull => "null"
  | JBool b => if b then "true" else "false"
  | JNum x => number_to_string x
  | JStr s => s
  | JArr items =>
      join ","
        (map (fun x => match x with
                       | JUndefined | JNull => ""
                       | _ => to_string x
                       end) items)
  | JObj _ => "[object Object]"
  end.

(** [JSON.stringify(v)]; [None] stands for the [undefined] it returns on
    [undefined].  A property whose value is [undefined] is left out of an
    object, and written [null] in an array. *)
Fixpoint JSON_stringify (v : jsval) : option string :=
  match v with
  | JUndefined => None
  | JNull => Some "null"
  | JBool b => Some (if b then "true" else "false")
  | JNum x => Some (number_to_string x)
  | JStr s => Some (json_quote s)
  | JArr items =>
      Some ("[" +:+ join "," (map (fun x => default "null" (JSON_stringify x))
                                  items) +:+ "]")
  | JObj props =>
      Some ("{" +:+
            join ","
              (omap (fun kv => match kv with
                               | (k, x) =>
                                   match JSON_stringify x with
                                   | Some s => Some (json_quote k +:+ ":" +:+ s)
                                   | None => None
                                   end
                               end) props)
            +:+ "}")
  end.

End WithExternals.

(** ** The database *)

(** A value as SQLite holds it.  The model keeps what was bound to the
    statement; conversions by column affinity are the engine's. *)
Inductive sqlval : Type :=
| SqlNull
| SqlReal (x : Q)
| SqlText (s : string).

Definition not_null (c : sqlval) : bool :=
  match c with
  | SqlNull => false
  | _ => true
  end.

(** Table [twilio_messages] (lines 27-37), columns as the schema spells
    them.  Every column is NOT NULL; there is no key and no UNIQUE. *)
Module TwilioMessages.
Record row : Type := {
  recevied_on : sqlval;
  twilio_signature : sqlval;
  twilio_idempotency_token : sqlval;
  twilio_sms_message_sid : sqlval;
  twilio_account_sid : sqlval;
  twilio_api_version : sqlval;
  webhook_endpoint : sqlval;
  is_authentic_request : sqlval;
  raw_request : sqlval
}.
Definition columns (r : row) : list sqlval :=
  [recevied_on r; twilio_signature r; twilio_idempotency_token r;
   twilio_sms_message_sid r; twilio_account_sid r; twilio_api_version r;
   webhook_endpoint r; is_authentic_request r; raw_request r].
End TwilioMessages.

(** Table [sms] (lines 42-48), again all NOT NULL and without a key. *)
Module Sms.
Record row : Type := {
  hash_id : sqlval;
  sender : sqlval;
  receiver : sqlval;
  body : sqlval;
  received_on : sqlval
}.
Definition columns (r : row) : list sqlval :=
  [hash_id r; sender r; receiver r; body r; received_on r].
End Sms.

Record database : Type := {
  twilio_messages : list TwilioMessages.row;
  sms : list Sms.row
}.

(** A database operation: it returns or throws, and leaves a database
    behind either way. *)
Definition M (A : Type) : Type := database → result A * database.

Global Instance M_ret : MRet M := fun A a db => (Return a, db).
Global Instance M_bind : MBind M := fun A B k m db =>
  match m db with
  | (Throw e, db1) => (Throw e, db1)
  | (Return a, db1) => k a db1
  end.

(** A step that touches no table. *)
Definition lift {A : Type} (r : result A) : M A := fun db => (r, db).

(** How better-sqlite3 binds one JavaScript value. *)
Definition bind_value (v : jsval) : result sqlval :=
  match v with
  | JNum x => Return (SqlReal x)
  | JStr s => Return (SqlText s)
  | JUndefined | JNull => Return SqlNull
  | JBool _ | JArr _ | JObj _ =>
      Throw (TypeError
        "SQLite3 can only bind numbers, strings, bigints, buffers, and null")
  end.

Fixpoint own_prop (k : string) (props : list (string * jsval))
  : option jsval :=
  match props with
  | [] => None
  | (k', v) :: rest => if String.eqb k k' then Some v else own_prop k rest
  end.

(** Binding the named parameter [:name] from the object given to [run]. *)
Definition bind_named (params : list (string * jsval)) (name : string)
  : result sqlval :=
  match own_prop name params with
  | Some v => bind_value v
  | None => Throw (RangeError "Missing named parameter")
  end.

(** The NOT NULL constraints of a table, checked when the row is stored. *)
Definition check_not_null (cols : list sqlval) : result unit :=
  if forallb not_null cols then Return tt
  else Throw (SqliteError "SQLITE_CONSTRAINT_NOTNULL").

(** [twilioRequestInsertStatement.run(params)] (lines 53-67). *)
Definition twilioRequestInsertStatement_run (params : list (string * jsval))
  : M unit := fun db =>
  let bound :=
    c1 ← bind_named params "received_on";
    c2 ← bind_named params "signature";
    c3 ← bind_named params "idempotency_token";
    c4 ← bind_named params "sms_message_sid";
    c5 ← bind_named params "account_sid";
    c6 ← bind_named params "api_version";
    c7 ← bind_named params "webhook_endpoint";
    c8 ← bind_named params "is_authentic_request";
    c9 ← bind_named params "raw_request";
    let r := {| TwilioMessages.recevied_on := c1;
                TwilioMessages.twilio_signature := c2;
                TwilioMessages.twilio_idempotency_token := c3;
                TwilioMessages.twilio_sms_message_sid := c4;
                TwilioMessages.twilio_account_sid := c5;
                TwilioMessages.twilio_api_version := c6;
                TwilioMessages.webhook_endpoint := c7;
                TwilioMessages.is_authentic_request := c8;
                TwilioMessages.raw_request := c9 |} in
    _ ← check_not_null (TwilioMessages.columns r);
    mret r in
  match bound with
  | Throw e => (Throw e, db)
  | Return r =>
      (Return tt,
       {| twilio_messages := twilio_messages db ++ [r]; sms := sms db |})
  end.

(** [smsInsertStatement.run(params)] (lines 68-78). *)
Definition smsInsertStatement_run (params : list (string * jsval))
  : M unit := fun db =>
  let bound :=
    c1 ← bind_named params "requestUID";
    c2 ← bind_named params "sender";
    c3 ← bind_named params "receiver";
    c4 ← bind_named params "body";
    c5 ← bind_named params "received_on";
    let r := {| Sms.hash_id := c1; Sms.sender := c2; Sms.receiver := c3;
                Sms.body := c4; Sms.received_on := c5 |} in
    _ ← check_not_null (Sms.columns r);
    mret r in
  match bound with
  | Throw e => (Throw e, db)
  | Return r =>
      (Return tt,
       {| twilio_messages := twilio_messages db; sms := sms db ++ [r] |})
  end.

(** [db.transaction(f)]: BEGIN, run [f], then COMMIT when it returns and
    ROLLBACK when it throws; the exception is thrown on. *)
Definition transaction {T A : Type} (f : T → M A) : T → M A := fun t db =>
  match f t db with
  | (Return a, db1) => (Return a, db1)
  | (Throw e, _) => (Throw e, db)
  end.

(** A value that can be stored in a NOT NULL column: a string or a number. *)
Definition storable (v : jsval) : bool :=
  match v with
  | JStr _ | JNum _ => true
  | _ => false
  end.

(** What a string or a number becomes once bound. *)
Definition sql_of (v : jsval) : sqlval :=
  match v with
  | JNum x => SqlReal x
  | JStr s => SqlText s
  | _ => SqlNull
  end.

(** ** The handler *)

(** The object [t] of lines 116-140, once all seven properties are set. *)
Record twilio_obj : Type := {
  receivedOn : Q;
  TwilioSignature : jsval;
  TwilioIdempotencyToken : jsval;
  requestBody : jsval;
  webhookEndpoint : string;
  isAuthenticTwilioResponse : bool;
  requestUID : string
}.

(** [t] as a JavaScript object, properties in the order they were set. *)
Definition twilio_obj_value (t : twilio_obj) : jsval :=
  JObj [("receivedOn", JNum (receivedOn t));
        ("TwilioSignature", TwilioSignature t);
        ("TwilioIdempotencyToken", TwilioIdempotencyToken t);
        ("requestBody", requestBody t);
        ("webhookEndpoint", JStr (webhookEndpoint t));
        ("isAuthenticTwilioResponse", JBool (isAuthenticTwilioResponse t));
        ("requestUID", JStr (requestUID t))].

(** Unary plus on a boolean. *)
Definition number_of_bool (b : bool) : Q := if b then 1%Q else 0%Q.

(** What Fastify sends back: the content type and status set on [reply]
    ([None]: [reply.code] was never called, Fastify's default stands) and
    the value the handler returned. *)
Record reply : Type := {
  content_type : string;
  code : option Z
}.

Inductive outcome : Type :=
| Responded (r : reply) (payload : jsval)
| Rejected (e : exn).

Record handled : Type := {
  response : outcome;
  stored : database;
  logged : list string
}.

(** The options of the call on lines 136-139. *)
Definition uid_options : argon2_options := {| type := 2; hashLength := 384 |}.

Section Handler.
Context `{Externals}.

(** The template literal of line 135. *)
Definition uid_preimage (sig tok sid : jsval) : string :=
  to_string sig +:+ "###" +:+ to_string tok +:+ "###" +:+ to_string sid.

(** Lines 134-140: the identifier derived from signature, idempotency token
    and message id, with the salt the call drew. *)
Definition derive (s : list Byte.byte) (sig tok sid : jsval) : string :=
  argon2_hash uid_options s (uid_preimage sig tok sid).

(** The function given to [db.transaction] on lines 79-98. *)
Definition insertSMS_body (t : twilio_obj) : M unit :=
  sid ← lift (get_prop (requestBody t) "SmsMessageSid");
  account ← lift (get_prop (requestBody t) "AccountSid");
  version ← lift (get_prop (requestBody t) "ApiVersion");
  _ ← twilioRequestInsertStatement_run
        [("received_on", JNum (receivedOn t));
         ("signature", TwilioSignature t);
         ("idempotency_token", TwilioIdempotencyToken t);
         ("sms_message_sid", sid);
         ("account_sid", account);
         ("api_version", version);
         ("webhook_endpoint", JStr (webhookEndpoint t));
         ("is_authentic_request",
          JNum (number_of_bool (isAuthenticTwilioResponse t)));
         ("raw_request",
          match JSON_stringify (twilio_obj_value t) with
          | Some text => JStr text
          | None => JUndefined
          end)];
  from ← lift (get_prop (requestBody t) "From");
  to ← lift (get_prop (requestBody t) "To");
  text ← lift (get_prop (requestBody t) "Body");
  smsInsertStatement_run
    [("requestUID", JStr (requestUID t));
     ("sender", from);
     ("receiver", to);
     ("body", text);
     ("received_on", JNum (receivedOn t))].

Definition insertSMS : twilio_obj → M unit := transaction insertSMS_body.

(** Lines 116-140: the object [t] for a request whose body has the message
    id [sid]. *)
Definition assemble (cfg : config) (w : world) (request : http_request)
  (sid : jsval) : twilio_obj :=
  let signature := header (headers request) "x-twilio-signature" in
  let token := header (headers request) "i-twilio-idempotency-token" in
  {| receivedOn := clock w;
     TwilioSignature := signature;
     TwilioIdempotencyToken := token;
     requestBody := body request;
     webhookEndpoint := WEBHOOK_ENDPOINT cfg;
     isAuthenticTwilioResponse :=
       validateRequest (TWILIO_AUTH_TOKEN cfg) signature
         (WEBHOOK_ENDPOINT cfg) (body request);
     requestUID := derive (salt w) signature token sid |}.

(** The route handler of lines 107-165. *)
Definition handler (cfg : config) (w : world) (request : http_request)
  (db : database) : handled :=
  let json := {| content_type := "application/json"; code := None |} in
  if is_twilio_request request then
    match get_prop (body request) "SmsMessageSid" with
    | Throw e => {| response := Rejected e; stored := db; logged := [] |}
    | Return sid =>
        let t := assemble cfg w request sid in
        match insertSMS t db with
        | (Throw e, db1) =>
            {| response := Rejected e; stored := db1; logged := [] |}
        | (Return _, db1) =>
            let line :=
              "[+] Inserted a "
              +:+ (if isAuthenticTwilioResponse t then "valid" else "invalid")
              +:+ " Twilio SMS: " +:+ to_string sid in
            if isAuthenticTwilioResponse t then
              {| response :=
                   Responded {| content_type := "text/html";
                                code := Some 200%Z |}
                     (JStr "<Response></Response>");
                 stored := db1;
                 logged := [line] |}
            else
              {| response :=
                   Responded {| content_type := "application/json";
                                code := Some 400%Z |}
                     (JObj [("error", JStr "Invalid Twilio request found.")]);
                 stored := db1;
                 logged := [line] |}
        end
    end
  else
    {| response :=
         Responded json (JObj [("error", JStr "Not Authenticated.")]);
       stored := db;
       logged := [] |}.

(** The rows the two statements store for [t] when every value binds:
    the parameter lists of lines 80-90 and 91-97 after binding. *)
Definition field (o : jsval) (k : string) : jsval :=
  match o with
  | JObj props => lookup_prop k props
  | _ => JUndefined
  end.

Definition audit_row (t : twilio_obj) : TwilioMessages.row :=
  {| TwilioMessages.recevied_on := SqlReal (receivedOn t);
     TwilioMessages.twilio_signature := sql_of (TwilioSignature t);
     TwilioMessages.twilio_idempotency_token :=
       sql_of (TwilioIdempotencyToken t);
     TwilioMessages.twilio_sms_message_sid :=
       sql_of (field (requestBody t) "SmsMessageSid");
     TwilioMessages.twilio_account_sid :=
       sql_of (field (requestBody t) "AccountSid");
     TwilioMessages.twilio_api_version :=
       sql_of (field (requestBody t) "ApiVersion");
     TwilioMessages.webhook_endpoint := SqlText (webhookEndpoint t);
     TwilioMessages.is_authentic_request :=
       SqlReal (number_of_bool (isAuthenticTwilioResponse t));
     TwilioMessages.raw_request :=
       SqlText (default "" (JSON_stringify (twilio_obj_value t))) |}.

Definition message_row (t : twilio_obj) : Sms.row :=
  {| Sms.hash_id := SqlText (requestUID t);
     Sms.sender := sql_of (field (requestBody t) "From");
     Sms.receiver := sql_of (field (requestBody t) "To");
     Sms.body := sql_of (field (requestBody t) "Body");
     Sms.received_on := SqlReal (receivedOn t) |}.

End Handler.

(** Modelled from the spec: [Twilio.validateRequest] is library code that is
    not in the repository.  The spec (4.1) has the verifier recompute the
    expected signature from the shared secret, the canonical URL and the
    parameters, compare it with the claimed one, and answer false on a
    missing or malformed signature.  [expected] is that recomputation. *)
Definition spec_validateRequest (expected : string → string → jsval → string)
  (authToken : string) (claimed : jsval) (url : string) (params : jsval)
  : bool :=
  match claimed with
  | JStr s => String.eqb s (expected authToken url params)
  | _ => false
  end.

(** The libraries with another verifier in place of [validateRequest]. *)
Definition with_verifier (E : Externals)
  (verify : string → jsval → string → jsval → bool) : Externals :=
  {| number_to_string := @number_to_string E;
     validateRequest := verify;
     argon2_raw := @argon2_raw E;
     argon2_costs := @argon2_costs E |}.

(** The libraries with the verifier of the spec in place of
    [validateRequest]. *)
Definition with_spec_verifier (E : Externals)
  (expected : string → string → jsval → string) : Externals :=
  {| number_to_string := @number_to_string E;
     validateRequest := spec_validateRequest expected;
     argon2_raw := @argon2_raw E;
     argon2_costs := @argon2_costs E |}.

(** ** Predicates used to state the properties *)

(** [pat] occurs in [s]. *)
Definition occurs_in (pat s : string) : Prop :=
  ∃ pre post, s = pre +:+ pat +:+ post.

(** [pat] occurs in [s] when the case of letters is ignored: some substring
    of [s] equals [pat] up to case. *)
Definition occurs_in_ci (pat s : string) : Prop :=
  ∃ pre mid post, s = pre +:+ mid +:+ post ∧ to_lower mid = to_lower pat.

Fixpoint has_char (c : ascii) (s : string) : bool :=
  match s with
  | EmptyString => false
  | String a s' => if Ascii.eqb a c then true else has_char c s'
  end.

Definition field_storable (o : jsval) (k : string) : bool :=
  match get_prop o k with
  | Return v => storable v
  | Throw _ => false
  end.

(** The six body fields the two statements read. *)
Definition message_fields : list string :=
  ["SmsMessageSid"; "AccountSid"; "ApiVersion"; "From"; "To"; "Body"].

(** An object [t] all of whose stored values are strings or numbers. *)
Definition complete_obj (t : twilio_obj) : bool :=
  storable (TwilioSignature t) && storable (TwilioIdempotencyToken t)
  && forallb (field_storable (requestBody t)) message_fields.

(** A request whose two Twilio headers are present and whose six body
    fields are strings or numbers. *)
Definition complete_request (request : http_request) : bool :=
  bool_decide (is_Some (headers request !! "x-twilio-signature"))
  && bool_decide (is_Some (headers request !! "i-twilio-idempotency-token"))
  && forallb (field_storable (body request)) message_fields.

(** The three values the identifier is derived from (line 135): the
    signature header, the idempotency-token header and the message id. *)
Definition identity_inputs (request : http_request) : jsval * jsval * jsval :=
  (header (headers request) "x-twilio-signature",
   header (headers request) "i-twilio-idempotency-token",
   field (body request) "SmsMessageSid").

(** The answer to a request that carries no Twilio header (line 164). *)
Definition not_authenticated : outcome :=
  Responded {| content_type := "application/json"; code := None |}
    (JObj [("error", JStr "Not Authenticated.")]).

(** ** A run of the server *)

Section Serve.
Context `{Externals}.

(** The catch-all route of line 107 applied to a sequence of requests, each
    with what it reads from the world.  The handler is suspended only at the
    [await] of line 134, before it touches the database, and [insertSMS] is
    one synchronous call: requests handled at the same time act on the
    database one after the other, in the order in which they reach line 143.
    [arrivals] lists them in that order. *)
Fixpoint serve (cfg : config) (arrivals : list (world * http_request))
  (db : database) : list outcome * database :=
  match arrivals with
  | [] => ([], db)
  | (w, request) :: rest =>
      let h := handler cfg w request db in
      let (answers, db') := serve cfg rest (stored h) in
      (response h :: answers, db')
  end.

(** The rows stored for a request by the server configured with [cfg]. *)
Definition audit_row_of (cfg : config) (a : world * http_request)
  : TwilioMessages.row :=
  audit_row (assemble cfg a.1 a.2 (field (body a.2) "SmsMessageSid")).

Definition message_row_of (cfg : config) (a : world * http_request)
  : Sms.row :=
  message_row (assemble cfg a.1 a.2 (field (body a.2) "SmsMessageSid")).

End Serve.

(** What the schema and the handler together keep true of a database:
    no column holds NULL, [is_authentic_request] is 0 or 1, and the two
    tables pair up row by row, the rows of a pair carrying the same arrival
    time. *)
Definition audit_row_ok (a : TwilioMessages.row) : Prop :=
  forallb not_null (TwilioMessages.columns a) = true
  ∧ (TwilioMessages.is_authentic_request a = SqlReal 0%Q
     ∨ TwilioMessages.is_authentic_request a = SqlReal 1%Q).

Definition message_row_ok (m : Sms.row) : Prop :=
  forallb not_null (Sms.columns m) = true.

Definition paired (a : TwilioMessages.row) (m : Sms.row) : Prop :=
  TwilioMessages.recevied_on a = Sms.received_on m.

Definition consistent (db : database) : Prop :=
  Forall2 paired (twilio_messages db) (sms db)
  ∧ Forall audit_row_ok (twilio_messages db)
  ∧ Forall message_row_ok (sms db).

(** ** Sample inputs *)

(** Stand-ins for the libraries, used only to run the handler on concrete
    requests; every theorem below holds for all instances of [Externals].
    The stand-in signature is a fixed text made from the secret, the stand-in
    tag is the text that was hashed. *)
Definition sample_expected (authToken url : string) (params : jsval)
  : string :=
  "sig-" +:+ authToken.

Definition sample_externals : Externals :=
  {| number_to_string := fun q =>
       DecimalString.NilZero.string_of_int
         (Z.to_int (Qnum q / Z.pos (Qden q)));
     validateRequest := spec_validateRequest sample_expected;
     argon2_raw := fun _ _ plain => list_byte_of_string plain;
     argon2_costs := "m=4096,t=3,p=1" |}.

Definition sample_config : config :=
  {| TWILIO_AUTH_TOKEN := "secret";
     WEBHOOK_ENDPOINT := "https://example.org/sms" |}.

Definition sample_world (s : list Byte.byte) : world :=
  {| clock := 1700000000%Q; salt := s |}.

Definition salt_a : list Byte.byte := [Byte.x01; Byte.x02; Byte.x03].
Definition salt_b : list Byte.byte := [Byte.xff; Byte.x02; Byte.x03].

Definition sample_body : jsval :=
  JObj [("SmsMessageSid", JStr "SM123"); ("AccountSid", JStr "AC1");
        ("ApiVersion", JStr "2010-04-01"); ("From", JStr "+15551234567");
        ("To", JStr "+15557654321"); ("Body", JStr "hi")].

(** A callback with the right signature. *)
Definition authentic_request : http_request :=
  {| rawHeaders := [("Host", "example.org");
                    ("X-Twilio-Signature", "sig-secret");
                    ("I-Twilio-Idempotency-Token", "tok-1")];
     body := sample_body |}.

(** The same callback with the last character of the signature changed. *)
Definition tampered_request : http_request :=
  {| rawHeaders := [("Host", "example.org");
                    ("X-Twilio-Signature", "sig-secreu");
                    ("I-Twilio-Idempotency-Token", "tok-1")];
     body := sample_body |}.

(** A request without any Twilio header. *)
Definition foreign_request : http_request :=
  {| rawHeaders := [("Host", "example.org"); ("Accept", "*/*")];
     body := sample_body |}.

(** A signed callback that carries no idempotency token. *)
Definition tokenless_request : http_request :=
  {| rawHeaders := [("X-Twilio-Signature", "sig-secret")];
     body := sample_body |}.

(** A signed callback whose body has no [Body] field. *)
Definition textless_request : http_request :=
  {| rawHeaders := [("X-Twilio-Signature", "sig-secret");
                    ("I-Twilio-Idempotency-Token", "tok-1")];
     body := JObj [("SmsMessageSid", JStr "SM123"); ("AccountSid", JStr "AC1");
                   ("ApiVersion", JStr "2010-04-01");
                   ("From", JStr "+15551234567");
                   ("To", JStr "+15557654321")] |}.

Definition empty_database : database := {| twilio_messages := []; sms := [] |}.

(** Requests as they might arrive: an authentic callback, a foreign request,
    a tampered replay, a callback without idempotency token, and the first
    callback again. *)
Definition sample_arrivals : list (world * http_request) :=
  [(sample_world salt_a, authentic_request);
   (sample_world salt_a, foreign_request);
   (sample_world salt_b, tampered_request);
   (sample_world salt_a, tokenless_request);
   (sample_world salt_b, authentic_request)].

(** The object [t] of the callback without a [Body] field. *)
Definition textless_obj : twilio_obj :=
  assemble (H := sample_externals) sample_config (sample_world salt_a)
    textless_request (JStr "SM123").

(** A signed callback whose form body gave [Body] twice: the body parser
    hands such a field over as an array. *)
Definition doubled_text_request : http_request :=
  {| rawHeaders := [("X-Twilio-Signature", "sig-secret");
                    ("I-Twilio-Idempotency-Token", "tok-1")];
     body := JObj [("SmsMessageSid", JStr "SM123"); ("AccountSid", JStr "AC1");
                   ("ApiVersion", JStr "2010-04-01");
                   ("From", JStr "+15551234567");
                   ("To", JStr "+15557654321");
                   ("Body", JArr [JStr "hi"; JStr "hi"])] |}.

(** The authentic callback with one more header and one more body field. *)
Definition padded_request : http_request :=
  {| rawHeaders := [("Host", "example.org");
                    ("User-Agent", "TwilioProxy/1.1");
                    ("X-Twilio-Signature", "sig-secret");
                    ("I-Twilio-Idempotency-Token", "tok-1")];
     body := JObj [("SmsMessageSid", JStr "SM123"); ("AccountSid", JStr "AC1");
                   ("ApiVersion", JStr "2010-04-01");
                   ("From", JStr "+15551234567");
                   ("To", JStr "+15557654321"); ("Body", JStr "hi");
                   ("NumMedia", JStr "0")] |}.
(** * Properties *)

(** ** Strings *)

Lemma append_cons (a : ascii) (s t : string) :
  String a s +:+ t = String a (s +:+ t).
Proof. reflexivity. Qed.

Lemma append_assoc (a b c : string) : (a +:+ b) +:+ c = a +:+ (b +:+ c).
Proof.
  induction a as [|x a IH]; [reflexivity|].
  rewrite !append_cons. by rewrite IH.
Qed.

Lemma starts_with_spec (pat s : string) :
  starts_with pat s = true ↔ ∃ rest, s = pat +:+ rest.
Proof.
  revert s. induction pat as [|a pat IH]; intros s; simpl.
  - split; [intros _; by exists s | done].
  - destruct s as [|b s].
    + split; [done | intros [rest Hrest]; discriminate Hrest].
    + destruct (Ascii.eqb_spec a b) as [->|Hne].
      * rewrite IH. split; intros [rest Hrest]; exists rest.
        -- rewrite append_cons. by rewrite Hrest.
        -- rewrite append_cons in Hrest. by injection Hrest.
      * split; [done|]. intros [rest Hrest].
        rewrite append_cons in Hrest. injection Hrest as Hhead _. congruence.
Qed.

Lemma indexOf_from_occurs (s pat : string) (i : Z) :
  (0 ≤ i)%Z → indexOf_from s pat i ≠ (-1)%Z ↔ occurs_in pat s.
Proof.
  revert i. induction s as [|a s IH]; intros i Hi; simpl.
  - destruct (starts_with pat "") eqn:Hstart.
    + apply starts_with_spec in Hstart as [rest Hrest].
      split; [intros _; by exists "", rest | lia].
    + split; [done|]. intros (pre & post & Hocc).
      destruct pre; [|discriminate Hocc].
      assert (starts_with pat "" = true) by (apply starts_with_spec; eauto).
      congruence.
  - destruct (starts_with pat (String a s)) eqn:Hstart.
    + apply starts_with_spec in Hstart as [rest Hrest].
      split; [intros _; by exists "", rest | lia].
    + rewrite IH by lia. split; intros (pre & post & Hocc).
      * exists (String a pre), post. rewrite append_cons. by rewrite Hocc.
      * destruct pre as [|b pre].
        -- assert (starts_with pat (String a s) = true)
             by (apply starts_with_spec; eauto).
           congruence.
        -- rewrite append_cons in Hocc. injection Hocc as _ Hocc.
           by exists pre, post.
Qed.

(** The condition [~k.indexOf(pat)] holds exactly when [pat] occurs in [k]. *)
Lemma lnot_indexOf_truthy (k pat : string) :
  truthy (Z.lnot (indexOf k pat)) = true ↔ occurs_in pat k.
Proof.
  rewrite <- (indexOf_from_occurs k pat 0) by lia.
  unfold truthy, indexOf, Z.lnot.
  rewrite negb_true_iff, Z.eqb_neq. lia.
Qed.

Lemma to_lower_app (a b : string) :
  to_lower (a +:+ b) = to_lower a +:+ to_lower b.
Proof.
  induction a as [|x a IH]; [reflexivity|].
  rewrite append_cons. simpl. rewrite append_cons. by rewrite IH.
Qed.

Lemma to_lower_split (s a b : string) :
  to_lower s = a +:+ b →
  ∃ s1 s2, s = s1 +:+ s2 ∧ to_lower s1 = a ∧ to_lower s2 = b.
Proof.
  revert s. induction a as [|x a IH]; intros s Hs.
  - by exists "", s.
  - destruct s as [|y s]; [discriminate Hs|].
    rewrite append_cons in Hs. simpl in Hs. injection Hs as Hx Hs.
    destruct (IH _ Hs) as (s1 & s2 & -> & <- & <-).
    exists (String y s1), s2. simpl. by rewrite Hx.
Qed.

Lemma occurs_in_lower (pat s : string) :
  occurs_in (to_lower pat) (to_lower s) ↔ occurs_in_ci pat s.
Proof.
  split.
  - intros (pre & post & Hocc).
    apply to_lower_split in Hocc as (s1 & s23 & -> & <- & Hrest).
    apply to_lower_split in Hrest as (s2 & s3 & -> & Hmid & _).
    by exists s1, s2, s3.
  - intros (pre & mid & post & -> & Hmid).
    exists (to_lower pre), (to_lower post).
    by rewrite !to_lower_app, Hmid.
Qed.

(** ** Headers *)

Lemma add_header_lookup (h : gmap string string) (kv : string * string)
  (k : string) :
  is_Some (add_header h kv !! k) ↔ is_Some (h !! k) ∨ to_lower kv.1 = k.
Proof.
  unfold add_header.
  destruct (h !! to_lower kv.1) eqn:Hold;
    (destruct (decide (to_lower kv.1 = k)) as [<-|Hne];
     [rewrite lookup_insert_eq; split; [by right | eauto]
     |rewrite lookup_insert_ne by done; split; [by left | by intros [?|?]]]).
Qed.

Lemma foldl_add_header_lookup (raw : list (string * string))
  (h : gmap string string) (k : string) :
  is_Some (foldl add_header h raw !! k) ↔
  is_Some (h !! k) ∨ ∃ kv, kv ∈ raw ∧ to_lower kv.1 = k.
Proof.
  revert h. induction raw as [|kv raw IH]; intros h; simpl.
  - split; [by left|]. intros [?|(kv & Hin & _)]; [done|].
    by apply elem_of_nil in Hin.
  - rewrite IH, add_header_lookup. split.
    + intros [[?|?]|(kv' & Hin & Hk)]; [by left | right | right].
      * exists kv. split; [apply list_elem_of_here | done].
      * exists kv'. split; [by apply list_elem_of_further | done].
    + intros [?|(kv' & Hin & Hk)]; [by left; left|].
      apply elem_of_cons in Hin as [->|Hin]; [by left; right|].
      right. by exists kv'.
Qed.

(** The names Node presents are the wire names in lower case. *)
Lemma header_keys_spec (raw : list (string * string)) (k : string) :
  k ∈ header_keys (node_headers raw) ↔ ∃ kv, kv ∈ raw ∧ to_lower kv.1 = k.
Proof.
  unfold header_keys, node_headers.
  rewrite list_elem_of_fmap. split.
  - intros ([k' v] & -> & Hin). apply elem_of_map_to_list in Hin.
    assert (is_Some (foldl add_header ∅ raw !! k')) as Hsome by eauto.
    apply foldl_add_header_lookup in Hsome as [Hempty|?]; [|done].
    rewrite lookup_empty in Hempty. by destruct Hempty.
  - intros Hraw.
    assert (is_Some (foldl add_header ∅ raw !! k)) as [v Hv]
      by (apply foldl_add_header_lookup; by right).
    exists (k, v). split; [done|]. by apply elem_of_map_to_list.
Qed.

(** The test of line 113 as it reads: some key of [request.headers]
    contains [twilio]. *)
Lemma is_twilio_request_keys (request : http_request) :
  is_twilio_request request = true ↔
  ∃ k, k ∈ header_keys (headers request) ∧ occurs_in "twilio" k.
Proof.
  unfold is_twilio_request. rewrite existsb_exists.
  split; intros (k & Hin & Hk); exists k;
    (split; [by apply list_elem_of_In | by apply lnot_indexOf_truthy]).
Qed.

(** The test of line 113 in terms of the headers on the wire. *)
Lemma is_twilio_request_spec (request : http_request) :
  is_twilio_request request = true ↔
  ∃ kv, kv ∈ rawHeaders request ∧ occurs_in_ci "twilio" kv.1.
Proof.
  unfold is_twilio_request, headers. rewrite existsb_exists. split.
  - intros (k & Hin & Htest).
    apply list_elem_of_In, header_keys_spec in Hin as (kv & Hkv & <-).
    apply lnot_indexOf_truthy in Htest.
    exists kv. split; [done|]. by apply occurs_in_lower.
  - intros (kv & Hkv & Hocc). exists (to_lower kv.1). split.
    + apply list_elem_of_In, header_keys_spec. by exists kv.
    + apply lnot_indexOf_truthy. by apply (occurs_in_lower "twilio").
Qed.

(** ** Statements and the transaction *)

Lemma bind_value_storable (v : jsval) :
  storable v = true → bind_value v = Return (sql_of v).
Proof. by destruct v. Qed.

Lemma not_null_sql_of (v : jsval) : not_null (sql_of v) = storable v.
Proof. by destruct v. Qed.

(** A value that binds to a non-null column is a string or a number. *)
Lemma bind_value_not_null (v : jsval) (c : sqlval) :
  bind_value v = Return c → not_null c = true → storable v = true.
Proof. destruct v; simpl; intros [= <-]; done. Qed.

Lemma transaction_throw {T A : Type} (f : T → M A) (t : T) (db db1 : database)
  (e : exn) :
  f t db = (Throw e, db1) → transaction f t db = (Throw e, db).
Proof. unfold transaction. by intros ->. Qed.

Lemma transaction_return {T A : Type} (f : T → M A) (t : T)
  (db db1 : database) (a : A) :
  f t db = (Return a, db1) → transaction f t db = (Return a, db1).
Proof. unfold transaction. by intros ->. Qed.

(** Whether a field can be stored, in terms of the value read from it. *)
Lemma field_storable_field (o : jsval) (k : string) :
  field_storable o k = storable (field o k).
Proof. by destruct o. Qed.

Section RowFacts.
Context `{Externals}.

Lemma JSON_stringify_obj_text (t : twilio_obj) :
  ∃ text, JSON_stringify (twilio_obj_value t) = Some text.
Proof. unfold twilio_obj_value. simpl. eauto. Qed.

Lemma complete_obj_body (t : twilio_obj) :
  complete_obj t = true →
  ∃ props, requestBody t = JObj props
           ∧ Forall (fun k => storable (lookup_prop k props) = true)
                    message_fields.
Proof.
  unfold complete_obj. intros [_ Hfields]%andb_prop.
  destruct (requestBody t) as [| | | | | |props]; try discriminate Hfields.
  exists props. split; [done|].
  apply Is_true_true, forallb_True in Hfields. unfold field_storable in Hfields.
  simpl in Hfields. eapply Forall_impl; [exact Hfields|].
  intros k Hk. by apply Is_true_true.
Qed.

Lemma bind_named_not_null (params : list (string * jsval)) (k : string)
  (c : sqlval) :
  bind_named params k = Return c → not_null c = true →
  ∃ v, own_prop k params = Some v ∧ storable v = true.
Proof.
  unfold bind_named. destruct (own_prop k params) as [v|]; [|done].
  intros Hb Hc. exists v. split; [done|]. by eapply bind_value_not_null.
Qed.

(** A statement that returned has bound a string or a number to each of its
    named parameters. *)
Lemma twilioRequestInsertStatement_run_return (params : list (string * jsval))
  (db db1 : database) (u : unit) :
  twilioRequestInsertStatement_run params db = (Return u, db1) →
  Forall (fun k => ∃ v, own_prop k params = Some v ∧ storable v = true)
    ["signature"; "idempotency_token"; "sms_message_sid"; "account_sid";
     "api_version"].
Proof.
  unfold twilioRequestInsertStatement_run, mbind, result_bind.
  destruct (bind_named params "received_on") as [?|c1]; [done|].
  destruct (bind_named params "signature") as [?|c2] eqn:H2; [done|].
  destruct (bind_named params "idempotency_token") as [?|c3] eqn:H3; [done|].
  destruct (bind_named params "sms_message_sid") as [?|c4] eqn:H4; [done|].
  destruct (bind_named params "account_sid") as [?|c5] eqn:H5; [done|].
  destruct (bind_named params "api_version") as [?|c6] eqn:H6; [done|].
  destruct (bind_named params "webhook_endpoint") as [?|c7]; [done|].
  destruct (bind_named params "is_authentic_request") as [?|c8]; [done|].
  destruct (bind_named params "raw_request") as [?|c9]; [done|].
  unfold check_not_null. simpl forallb.
  destruct (not_null c1); [|done]. destruct (not_null c2) eqn:N2; [|done].
  destruct (not_null c3) eqn:N3; [|done].
  destruct (not_null c4) eqn:N4; [|done].
  destruct (not_null c5) eqn:N5; [|done].
  destruct (not_null c6) eqn:N6; [|done]. intros _.
  repeat apply Forall_cons_2; eauto using bind_named_not_null.
Qed.

Lemma smsInsertStatement_run_return (params : list (string * jsval))
  (db db1 : database) (u : unit) :
  smsInsertStatement_run params db = (Return u, db1) →
  Forall (fun k => ∃ v, own_prop k params = Some v ∧ storable v = true)
    ["sender"; "receiver"; "body"].
Proof.
  unfold smsInsertStatement_run, mbind, result_bind.
  destruct (bind_named params "requestUID") as [?|c1]; [done|].
  destruct (bind_named params "sender") as [?|c2] eqn:H2; [done|].
  destruct (bind_named params "receiver") as [?|c3] eqn:H3; [done|].
  destruct (bind_named params "body") as [?|c4] eqn:H4; [done|].
  destruct (bind_named params "received_on") as [?|c5]; [done|].
  unfold check_not_null. simpl forallb.
  destruct (not_null c1); [|done]. destruct (not_null c2) eqn:N2; [|done].
  destruct (not_null c3) eqn:N3; [|done].
  destruct (not_null c4) eqn:N4; [|done]. intros _.
  repeat apply Forall_cons_2; eauto using bind_named_not_null.
Qed.

Lemma insertSMS_body_complete (t : twilio_obj) (db : database) :
  complete_obj t = true →
  insertSMS_body t db =
  (Return tt,
   {| twilio_messages := twilio_messages db ++ [audit_row t];
      sms := sms db ++ [message_row t] |}).
Proof.
  intros Hc. destruct (complete_obj_body t Hc) as (props & Hbody & Hfields).
  apply andb_prop in Hc as [[Hsig Htok]%andb_prop _].
  unfold message_fields in Hfields.
  repeat (apply Forall_cons in Hfields as [? Hfields]).
  destruct (JSON_stringify_obj_text t) as [text Htext].
  unfold insertSMS_body, audit_row, message_row, mbind, M_bind, lift.
  rewrite Hbody. simpl get_prop. cbv beta iota.
  unfold twilioRequestInsertStatement_run, smsInsertStatement_run, bind_named.
  rewrite Htext. simpl own_prop. cbv beta iota.
  rewrite !bind_value_storable by done.
  unfold check_not_null, mbind, result_bind, mret, result_ret.
  simpl. rewrite !not_null_sql_of.
  repeat match goal with Hs : storable _ = true |- _ => rewrite Hs; clear Hs end.
  reflexivity.
Qed.

Lemma insertSMS_body_return_complete (t : twilio_obj) (db db1 : database)
  (u : unit) :
  insertSMS_body t db = (Return u, db1) → complete_obj t = true.
Proof.
  unfold insertSMS_body, mbind, M_bind, lift, complete_obj, message_fields.
  unfold field_storable. simpl forallb.
  destruct (get_prop (requestBody t) "SmsMessageSid") as [?|sid] eqn:Hsid;
    [done|].
  destruct (get_prop (requestBody t) "AccountSid") as [?|account]; [done|].
  destruct (get_prop (requestBody t) "ApiVersion") as [?|version]; [done|].
  match goal with |- context [twilioRequestInsertStatement_run ?p db] =>
    destruct (twilioRequestInsertStatement_run p db) as [[e|[]] db2] eqn:Hrun1
  end; [done|].
  destruct (get_prop (requestBody t) "From") as [?|from]; [done|].
  destruct (get_prop (requestBody t) "To") as [?|to]; [done|].
  destruct (get_prop (requestBody t) "Body") as [?|text]; [done|].
  intros Hrun2.
  apply twilioRequestInsertStatement_run_return in Hrun1.
  apply smsInsertStatement_run_return in Hrun2.
  repeat (apply Forall_cons in Hrun1 as [(? & [= <-] & ->) Hrun1]).
  repeat (apply Forall_cons in Hrun2 as [(? & [= <-] & ->) Hrun2]).
  reflexivity.
Qed.

(** [insertSMS] commits both rows exactly when every stored value is a
    string or a number, and changes nothing otherwise. *)
Lemma insertSMS_complete (t : twilio_obj) (db : database) :
  complete_obj t = true →
  insertSMS t db =
  (Return tt,
   {| twilio_messages := twilio_messages db ++ [audit_row t];
      sms := sms db ++ [message_row t] |}).
Proof.
  intros Hc. unfold insertSMS.
  eapply transaction_return. by apply insertSMS_body_complete.
Qed.

Lemma insertSMS_incomplete (t : twilio_obj) (db : database) :
  complete_obj t = false → ∃ e, insertSMS t db = (Throw e, db).
Proof.
  intros Hc. unfold insertSMS.
  destruct (insertSMS_body t db) as [[e|u] db1] eqn:Hbody.
  - exists e. by eapply transaction_throw.
  - apply insertSMS_body_return_complete in Hbody. congruence.
Qed.

Lemma storable_header (h : gmap string string) (k : string) :
  storable (header h k) = bool_decide (is_Some (h !! k)).
Proof.
  unfold header.
  destruct (h !! k) as [v|]; case_bool_decide as Hd; try done.
  destruct Hd. eauto.
Qed.

Lemma complete_obj_assemble (cfg : config) (w : world)
  (request : http_request) (sid : jsval) :
  complete_obj (assemble cfg w request sid) = complete_request request.
Proof.
  unfold complete_obj, complete_request, assemble. simpl.
  by rewrite !storable_header.
Qed.

(** A request with the signature header passes the test of line 113. *)
Lemma complete_request_is_twilio (request : http_request) :
  complete_request request = true → is_twilio_request request = true.
Proof.
  unfold complete_request.
  intros [[Hsig%bool_decide_eq_true _]%andb_prop _]%andb_prop.
  unfold is_twilio_request. apply existsb_exists.
  exists "x-twilio-signature". split; [|reflexivity].
  apply list_elem_of_In. unfold header_keys. apply list_elem_of_fmap.
  destruct Hsig as [v Hv]. exists ("x-twilio-signature", v).
  split; [done|]. by apply elem_of_map_to_list.
Qed.

Lemma complete_request_sid (request : http_request) :
  complete_request request = true →
  get_prop (body request) "SmsMessageSid"
  = Return (field (body request) "SmsMessageSid").
Proof.
  unfold complete_request. intros [_ Hfields]%andb_prop.
  by destruct (body request).
Qed.

(** The handler on a complete request: both rows are stored and the answer
    follows the verdict. *)
Lemma handler_complete (cfg : config) (w : world) (request : http_request)
  (db : database) :
  complete_request request = true →
  let t := assemble cfg w request (field (body request) "SmsMessageSid") in
  stored (handler cfg w request db)
  = {| twilio_messages := twilio_messages db ++ [audit_row t];
       sms := sms db ++ [message_row t] |}
  ∧ response (handler cfg w request db)
    = (if isAuthenticTwilioResponse t then
         Responded {| content_type := "text/html"; code := Some 200%Z |}
           (JStr "<Response></Response>")
       else
         Responded {| content_type := "application/json";
                      code := Some 400%Z |}
           (JObj [("error", JStr "Invalid Twilio request found.")])).
Proof.
  intros Hc t.
  assert (complete_obj t = true) as Ht
    by (unfold t; by rewrite complete_obj_assemble).
  unfold handler.
  rewrite (complete_request_is_twilio _ Hc), (complete_request_sid _ Hc).
  fold t. rewrite (insertSMS_complete t db Ht).
  by destruct (isAuthenticTwilioResponse t).
Qed.

(** On any other request that passed the test of line 113 the transaction
    is rolled back and the handler throws. *)
Lemma handler_incomplete (cfg : config) (w : world) (request : http_request)
  (db : database) :
  is_twilio_request request = true → complete_request request = false →
  ∃ e, handler cfg w request db
       = {| response := Rejected e; stored := db; logged := [] |}.
Proof.
  intros Hgate Hc. unfold handler. rewrite Hgate.
  destruct (get_prop (body request) "SmsMessageSid") as [e|sid]; [by exists e|].
  destruct (insertSMS_incomplete (assemble cfg w request sid) db) as [e ->];
    [by rewrite complete_obj_assemble | by exists e].
Qed.

Lemma handler_foreign (cfg : config) (w : world) (request : http_request)
  (db : database) :
  is_twilio_request request = false →
  handler cfg w request db
  = {| response :=
         Responded {| content_type := "application/json"; code := None |}
           (JObj [("error", JStr "Not Authenticated.")]);
       stored := db;
       logged := [] |}.
Proof. unfold handler. by intros ->. Qed.

End RowFacts.

(** ** Text cut at a separator *)

(** Two texts free of [c] that agree up to and after a [c] are equal, and so
    are the remainders. *)
Lemma split_at_char (c : ascii) (a b x y : string) :
  has_char c a = false → has_char c b = false →
  a +:+ String c x = b +:+ String c y → a = b ∧ x = y.
Proof.
  revert b. induction a as [|e a IH]; intros [|d b]; simpl;
    rewrite ?append_cons.
  - intros _ _ [= ->]. done.
  - destruct (Ascii.eqb_spec d c) as [->|Hne]; [done|]. intros _ _ [= ? _].
    congruence.
  - destruct (Ascii.eqb_spec e c) as [->|Hne]; [done|]. intros _ _ [= ? _].
    congruence.
  - destruct (Ascii.eqb_spec e c) as [->|Hne]; [done|].
    destruct (Ascii.eqb_spec d c) as [->|Hne']; [done|].
    intros Ha Hb [= -> Hrest].
    destruct (IH _ Ha Hb Hrest) as [-> ->]. done.
Qed.

(** ** Base64 *)

Lemma b64_index_char (n : N) : (n < 64)%N → b64_index (b64_char n) = n.
Proof.
  intros Hn. destruct n as [|p]; [reflexivity|].
  do 6 (try destruct p as [p|p|]); try reflexivity; lia.
Qed.

Lemma b64_char_inj (n m : N) :
  (n < 64)%N → (m < 64)%N → b64_char n = b64_char m → n = m.
Proof.
  intros Hn Hm Heq.
  rewrite <- (b64_index_char n Hn), <- (b64_index_char m Hm). by rewrite Heq.
Qed.

Lemma b64_char_not_dollar (n : N) :
  (n < 64)%N → Ascii.eqb (b64_char n) "$" = false.
Proof.
  intros Hn. destruct n as [|p]; [reflexivity|].
  do 6 (try destruct p as [p|p|]); try reflexivity; lia.
Qed.

Lemma list_ind3 {A : Type} (P : list A → Prop) :
  P [] → (∀ a, P [a]) → (∀ a b, P [a; b]) →
  (∀ a b c l, P l → P (a :: b :: c :: l)) →
  ∀ l, P l.
Proof.
  intros H0 H1 H2 H3 l.
  enough (P l ∧ (∀ a, P (a :: l)) ∧ (∀ a b, P (a :: b :: l))) by tauto.
  induction l as [|c l (IH0 & IH1 & IH2)]; [by auto|].
  split; [apply IH1|]. split; [intros a; apply IH2|].
  intros a b. by apply H3.
Qed.

(** The arithmetic of cutting bytes into six-bit digits. *)
Ltac cut_by x d :=
  pose proof (N.div_mod x d ltac:(lia));
  pose proof (N.mod_lt x d ltac:(lia));
  pose proof (N.le_0_l (x mod d));
  pose proof (N.le_0_l (x / d)).

Ltac cut_byte x :=
  pose proof (Byte.to_N_bounded x);
  cut_by (Byte.to_N x) 4%N;
  cut_by (Byte.to_N x) 16%N;
  cut_by (Byte.to_N x) 64%N.

Lemma byte_to_N_inj (x y : Byte.byte) : Byte.to_N x = Byte.to_N y → x = y.
Proof.
  intros Heq. pose proof (Byte.of_to_N x) as Hx.
  rewrite Heq, Byte.of_to_N in Hx. by injection Hx.
Qed.

Lemma b64_digits_1 (a a' : Byte.byte) :
  b64_char (Byte.to_N a / 4) = b64_char (Byte.to_N a' / 4) →
  b64_char (Byte.to_N a mod 4 * 16) = b64_char (Byte.to_N a' mod 4 * 16) →
  a = a'.
Proof.
  intros H1 H2. cut_byte a. cut_byte a'.
  apply b64_char_inj in H1; [|lia..]. apply b64_char_inj in H2; [|lia..].
  apply byte_to_N_inj. lia.
Qed.

Lemma b64_digits_2 (a b a' b' : Byte.byte) :
  b64_char (Byte.to_N a / 4) = b64_char (Byte.to_N a' / 4) →
  b64_char (Byte.to_N a mod 4 * 16 + Byte.to_N b / 16)
  = b64_char (Byte.to_N a' mod 4 * 16 + Byte.to_N b' / 16) →
  b64_char (Byte.to_N b mod 16 * 4) = b64_char (Byte.to_N b' mod 16 * 4) →
  a = a' ∧ b = b'.
Proof.
  intros H1 H2 H3. cut_byte a. cut_byte a'. cut_byte b. cut_byte b'.
  apply b64_char_inj in H1; [|lia..]. apply b64_char_inj in H2; [|lia..].
  apply b64_char_inj in H3; [|lia..].
  split; apply byte_to_N_inj; lia.
Qed.

Lemma b64_digits_3 (a b c a' b' c' : Byte.byte) :
  b64_char (Byte.to_N a / 4) = b64_char (Byte.to_N a' / 4) →
  b64_char (Byte.to_N a mod 4 * 16 + Byte.to_N b / 16)
  = b64_char (Byte.to_N a' mod 4 * 16 + Byte.to_N b' / 16) →
  b64_char (Byte.to_N b mod 16 * 4 + Byte.to_N c / 64)
  = b64_char (Byte.to_N b' mod 16 * 4 + Byte.to_N c' / 64) →
  b64_char (Byte.to_N c mod 64) = b64_char (Byte.to_N c' mod 64) →
  a = a' ∧ b = b' ∧ c = c'.
Proof.
  intros H1 H2 H3 H4.
  cut_byte a. cut_byte a'. cut_byte b. cut_byte b'. cut_byte c. cut_byte c'.
  apply b64_char_inj in H1; [|lia..]. apply b64_char_inj in H2; [|lia..].
  apply b64_char_inj in H3; [|lia..]. apply b64_char_inj in H4; [|lia..].
  repeat split; apply byte_to_N_inj; lia.
Qed.

(** Distinct byte strings have distinct encodings. *)
Lemma b64_encode_inj (l1 l2 : list Byte.byte) :
  b64_encode l1 = b64_encode l2 → l1 = l2.
Proof.
  revert l2. induction l1 as [|a|a b|a b c l1 IH] using list_ind3;
    intros [|a' [|b' [|c' l2]]]; simpl; intros Heq; try discriminate Heq;
    try done.
  - injection Heq as H1 H2. by rewrite (b64_digits_1 a a').
  - injection Heq as H1 H2 H3.
    by destruct (b64_digits_2 a b a' b' H1 H2 H3) as [-> ->].
  - injection Heq as H1 H2 H3 H4 Hrest.
    destruct (b64_digits_3 a b c a' b' c' H1 H2 H3 H4) as (-> & -> & ->).
    by rewrite (IH l2 Hrest).
Qed.

Lemma b64_encode_no_dollar (l : list Byte.byte) :
  has_char "$" (b64_encode l) = false.
Proof.
  induction l as [|a|a b|a b c l IH] using list_ind3; simpl; [done|..].
  - cut_byte a. by rewrite !b64_char_not_dollar by lia.
  - cut_byte a. cut_byte b. by rewrite !b64_char_not_dollar by lia.
  - cut_byte a. cut_byte b. cut_byte c.
    by rewrite !b64_char_not_dollar by lia.
Qed.

(** ** The encoded hash *)

Section HashFacts.
Context `{Externals}.

(** An encoded hash determines the salt and the tag it was made from. *)
Lemma argon2_hash_inj (opts : argon2_options) (s1 s2 : list Byte.byte)
  (p1 p2 : string) :
  argon2_hash opts s1 p1 = argon2_hash opts s2 p2 →
  s1 = s2 ∧ argon2_raw opts s1 p1 = argon2_raw opts s2 p2.
Proof.
  unfold argon2_hash. intros Heq.
  do 5 apply String.app_inj in Heq.
  apply split_at_char in Heq as [Hsalt Htag];
    [|apply b64_encode_no_dollar..].
  split; by apply b64_encode_inj.
Qed.

End HashFacts.

(** * The claims *)

Section Claims.
Context {E : Externals}.

(** ** C1: the identifier and the salt *)

(** C1 (as amended).  The identity hash is a function of the triple
    (signature, idempotency token, message id) and of the salt that
    [argon2.hash] draws for the call, and of nothing else: two complete
    requests with the same triple store the same [hash_id] if and only if
    the two calls drew the same salt, whatever the clock, the settings, the
    other headers and fields, and the database were. *)
Theorem identity_hash_equal_iff_same_salt (cfg1 cfg2 : config)
  (w1 w2 : world) (req1 req2 : http_request) (db1 db2 : database) :
  complete_request req1 = true → complete_request req2 = true →
  identity_inputs req1 = identity_inputs req2 →
  (Sms.hash_id <$> last (sms (stored (handler cfg1 w1 req1 db1)))
   = Sms.hash_id <$> last (sms (stored (handler cfg2 w2 req2 db2))))
  ↔ salt w1 = salt w2.
Proof.
  intros Hc1 Hc2 Hid.
  destruct (handler_complete cfg1 w1 req1 db1 Hc1) as [-> _].
  destruct (handler_complete cfg2 w2 req2 db2 Hc2) as [-> _].
  cbn [sms]. rewrite !last_snoc. cbn -[derive].
  unfold identity_inputs in Hid. injection Hid as -> -> ->.
  split.
  - intros Heq.
    assert (∀ x y : string, Some (SqlText x) = Some (SqlText y) → x = y)
      as Hinj by (by intros x y [= ->]).
    apply Hinj in Heq. unfold derive in Heq.
    by apply argon2_hash_inj in Heq as [? _].
  - by intros ->.
Qed.

(** ** C2: the transaction *)

(** C2.  [insertSMS] is atomic.  When the function it wraps returns, both
    rows are committed; when it throws, whatever it had already stored
    (the audit row, if the second statement is the one that failed) is
    rolled back and the database is the one before the call. *)
Theorem insertSMS_atomic (t : twilio_obj) (db : database) :
  match insertSMS_body t db with
  | (Return u, db1) =>
      insertSMS t db = (Return u, db1)
      ∧ db1 = {| twilio_messages := twilio_messages db ++ [audit_row t];
                 sms := sms db ++ [message_row t] |}
  | (Throw e, _) => insertSMS t db = (Throw e, db)
  end.
Proof.
  destruct (insertSMS_body t db) as [[e|u] db1] eqn:Hbody.
  - by eapply transaction_throw.
  - split; [by eapply transaction_return|].
    pose proof (insertSMS_body_return_complete _ _ _ _ Hbody) as Hc.
    rewrite (insertSMS_body_complete t db Hc) in Hbody. by injection Hbody.
Qed.

(** ** C3: a tampered signature *)

(** C3 (as amended), with the verifier of the spec in place of
    [Twilio.validateRequest].  Take two requests that differ in one character
    of the signature header and agree on the idempotency token and the body,
    handled with everything else equal.  If the first verifies, the second
    does not; and the text that is hashed differs too, since it starts with
    the signature: the two identity hashes can only be equal if the Argon2
    tags of two distinct texts collide.  The verdict is no input of the
    hash: whatever verifier is put in the place of [validateRequest], and
    whatever it answers, each request gets the same identity hash. *)
Theorem tampering_flips_verdict_and_changes_preimage
  (expected : string → string → jsval → string) (cfg : config) (w : world)
  (req req' : http_request) (sid : jsval) (pre post : string) (c c' : ascii) :
  c ≠ c' →
  headers req !! "x-twilio-signature" = Some (pre +:+ String c post) →
  headers req' !! "x-twilio-signature" = Some (pre +:+ String c' post) →
  headers req' !! "i-twilio-idempotency-token"
  = headers req !! "i-twilio-idempotency-token" →
  body req' = body req →
  let t := assemble (H := with_spec_verifier E expected) cfg w req sid in
  let t' := assemble (H := with_spec_verifier E expected) cfg w req' sid in
  let text := uid_preimage (TwilioSignature t) (TwilioIdempotencyToken t) sid in
  let text' :=
    uid_preimage (TwilioSignature t') (TwilioIdempotencyToken t') sid in
  isAuthenticTwilioResponse t = true →
  isAuthenticTwilioResponse t' = false
  ∧ text' ≠ text
  ∧ (requestUID t' = requestUID t →
     argon2_raw uid_options (salt w) text'
     = argon2_raw uid_options (salt w) text)
  ∧ (∀ verify : string → jsval → string → jsval → bool,
       requestUID (assemble (H := with_verifier E verify) cfg w req sid)
       = requestUID t
       ∧ requestUID (assemble (H := with_verifier E verify) cfg w req' sid)
         = requestUID t').
Proof.
  intros Hc Hsig Hsig' Htok Hbody t t' text text'.
  unfold text, text', t, t', assemble, header.
  cbn [isAuthenticTwilioResponse TwilioSignature TwilioIdempotencyToken
       requestUID validateRequest with_spec_verifier with_verifier].
  rewrite Hsig, Hsig', Htok, Hbody. clear Hsig Hsig' Htok Hbody.
  intros Hverdict.
  assert (pre +:+ String c' post ≠ pre +:+ String c post) as Hne.
  { intros Heq. apply String.app_inj in Heq. by injection Heq. }
  split; [|split; [|split]].
  - unfold spec_validateRequest in *.
    apply String.eqb_eq in Hverdict as <-. by apply String.eqb_neq.
  - unfold uid_preimage. cbn [to_string].
    rewrite !append_assoc. intros Heq. apply String.app_inj in Heq.
    injection Heq. done.
  - unfold derive. intros [_ Htag]%argon2_hash_inj. exact Htag.
  - intros verify. split; reflexivity.
Qed.

(** ** C4: what is stored *)

(** C4 (as amended).  For every request whose signature and idempotency-token
    headers are both present and whose six message fields are strings or
    numbers, the handler stores exactly one audit row and exactly one message
    row whatever the verdict, and [is_authentic_request] holds 1 when the
    verdict is true and 0 when it is false. *)
Theorem complete_request_stores_one_row_each (cfg : config) (w : world)
  (request : http_request) (db : database) :
  complete_request request = true →
  ∃ a m,
    stored (handler cfg w request db)
    = {| twilio_messages := twilio_messages db ++ [a];
         sms := sms db ++ [m] |}
    ∧ TwilioMessages.is_authentic_request a
      = SqlReal (if validateRequest (TWILIO_AUTH_TOKEN cfg)
                      (header (headers request) "x-twilio-signature")
                      (WEBHOOK_ENDPOINT cfg) (body request)
                 then 1%Q else 0%Q).
Proof.
  intros Hc. destruct (handler_complete cfg w request db Hc) as [Hstored _].
  eexists _, _. split; [exact Hstored|]. reflexivity.
Qed.

(** ** C5: requests without a Twilio header *)

(** C5.  A request none of whose header names contains the fragment
    [twilio] (in any case) stores nothing, whatever its body, and is answered
    with the JSON object [{error: 'Not Authenticated.'}] at the default
    status. *)
Theorem no_twilio_header_no_write (cfg : config) (w : world)
  (request : http_request) (db : database) :
  (∀ kv, kv ∈ rawHeaders request → ¬ occurs_in_ci "twilio" kv.1) →
  stored (handler cfg w request db) = db
  ∧ response (handler cfg w request db)
    = Responded {| content_type := "application/json"; code := None |}
        (JObj [("error", JStr "Not Authenticated.")]).
Proof.
  intros Hnone. rewrite handler_foreign; [done|].
  apply not_true_is_false. intros Hgate.
  apply is_twilio_request_spec in Hgate as (kv & Hin & Hocc).
  by apply (Hnone kv).
Qed.

(** ** C6: the answer *)

(** C6 (as amended).  Whenever the handler answers a request that carries a
    Twilio header (it answers exactly when the body is present and the
    transaction commits, and throws otherwise), the answer follows the
    verdict: 200, [text/html] and [<Response></Response>] when it is true;
    400 and the JSON object [{error: 'Invalid Twilio request found.'}] when
    it is false. *)
Theorem response_follows_verdict (cfg : config) (w : world)
  (request : http_request) (db : database) (r : reply) (payload : jsval) :
  is_twilio_request request = true →
  response (handler cfg w request db) = Responded r payload →
  if validateRequest (TWILIO_AUTH_TOKEN cfg)
       (header (headers request) "x-twilio-signature")
       (WEBHOOK_ENDPOINT cfg) (body request)
  then r = {| content_type := "text/html"; code := Some 200%Z |}
       ∧ payload = JStr "<Response></Response>"
  else r = {| content_type := "application/json"; code := Some 400%Z |}
       ∧ payload = JObj [("error", JStr "Invalid Twilio request found.")].
Proof.
  intros Hgate. unfold handler. rewrite Hgate.
  destruct (get_prop (body request) "SmsMessageSid") as [e|sid]; [done|].
  destruct (insertSMS (assemble cfg w request sid) db) as [[e|u] db1];
    [done|].
  cbn [isAuthenticTwilioResponse assemble].
  destruct (validateRequest _ _ _ _); cbn [response]; by intros [= <- <-].
Qed.

(** ** C7: replayed requests *)

(** C7 (as amended).  Take two requests with the same signature, the same
    idempotency token and the same six message fields, the first of them
    complete (both headers present, the six fields strings or numbers);
    they may differ in anything else.  Both are stored: each is answered, no
    constraint is violated, and the audit table ends with two rows that
    carry the same signature, token and message id. *)
Theorem replayed_request_stored_twice (cfg : config) (w1 w2 : world)
  (req1 req2 : http_request) (db : database) :
  complete_request req1 = true →
  headers req2 !! "x-twilio-signature" = headers req1 !! "x-twilio-signature" →
  headers req2 !! "i-twilio-idempotency-token"
  = headers req1 !! "i-twilio-idempotency-token" →
  Forall (fun k => field (body req2) k = field (body req1) k) message_fields →
  let first := handler cfg w1 req1 db in
  let second := handler cfg w2 req2 (stored first) in
  ∃ a1 a2 m1 m2 r1 p1 r2 p2,
    response first = Responded r1 p1
    ∧ response second = Responded r2 p2
    ∧ stored second
      = {| twilio_messages := twilio_messages db ++ [a1; a2];
           sms := sms db ++ [m1; m2] |}
    ∧ TwilioMessages.twilio_signature a1 = TwilioMessages.twilio_signature a2
    ∧ TwilioMessages.twilio_idempotency_token a1
      = TwilioMessages.twilio_idempotency_token a2
    ∧ TwilioMessages.twilio_sms_message_sid a1
      = TwilioMessages.twilio_sms_message_sid a2.
Proof.
  intros Hc1 Hsig Htok Hfields first second.
  assert (complete_request req2 = true) as Hc2.
  { unfold complete_request in *. rewrite Hsig, Htok.
    apply andb_prop in Hc1 as [-> Hfields1]. cbn [andb].
    apply forallb_forall. intros k Hk.
    rewrite field_storable_field.
    rewrite Forall_forall in Hfields.
    rewrite (Hfields k) by (by apply list_elem_of_In).
    rewrite <- field_storable_field.
    by apply (proj1 (forallb_forall _ _) Hfields1). }
  destruct (handler_complete cfg w1 req1 db Hc1) as [Hs1 Hr1].
  destruct (handler_complete cfg w2 req2 (stored first) Hc2) as [Hs2 Hr2].
  fold first in Hs1, Hr1. fold second in Hs2, Hr2.
  rewrite Hs1 in Hs2. cbn [twilio_messages sms] in Hs2.
  rewrite <- !app_assoc in Hs2. cbn [app] in Hs2.
  eexists _, _, _, _.
  assert (∀ t, ∃ r p,
    (if isAuthenticTwilioResponse t then
       Responded {| content_type := "text/html"; code := Some 200%Z |}
         (JStr "<Response></Response>")
     else
       Responded {| content_type := "application/json";
                    code := Some 400%Z |}
         (JObj [("error", JStr "Invalid Twilio request found.")]))
    = Responded r p) as Hanswer
    by (intros t; destruct (isAuthenticTwilioResponse t); eauto).
  destruct (Hanswer (assemble cfg w1 req1 (field (body req1) "SmsMessageSid")))
    as (r1 & p1 & Hp1).
  destruct (Hanswer (assemble cfg w2 req2 (field (body req2) "SmsMessageSid")))
    as (r2 & p2 & Hp2).
  exists r1, p1, r2, p2.
  split; [by rewrite Hr1|]. split; [by rewrite Hr2|].
  split; [exact Hs2|].
  cbn [audit_row assemble TwilioMessages.twilio_signature
       TwilioMessages.twilio_idempotency_token
       TwilioMessages.twilio_sms_message_sid TwilioSignature
       TwilioIdempotencyToken requestBody].
  unfold header. rewrite Hsig, Htok.
  apply Forall_cons in Hfields as [-> _]. done.
Qed.

(** ** C8: the text that is hashed *)

(** C8 (as amended).  Two distinct triples of strings whose signature and
    idempotency token contain no [#] give distinct texts to hash.  (The
    handler itself does not check its inputs for the separator.) *)
Theorem uid_preimage_unambiguous (sig1 tok1 sid1 sig2 tok2 sid2 : string) :
  has_char "#" sig1 = false → has_char "#" tok1 = false →
  has_char "#" sig2 = false → has_char "#" tok2 = false →
  (sig1, tok1, sid1) ≠ (sig2, tok2, sid2) →
  uid_preimage (JStr sig1) (JStr tok1) (JStr sid1)
  ≠ uid_preimage (JStr sig2) (JStr tok2) (JStr sid2).
Proof.
  intros Hs1 Ht1 Hs2 Ht2 Hne Heq. apply Hne. clear Hne.
  unfold uid_preimage in Heq. cbn [to_string] in Heq.
  change "###" with (String "#" "##") in Heq. rewrite !append_cons in Heq.
  apply split_at_char in Heq as [-> Heq]; [|done..].
  apply (String.app_inj "##") in Heq.
  apply split_at_char in Heq as [-> Heq]; [|done..].
  apply (String.app_inj "##") in Heq. by rewrite Heq.
Qed.

(** ** C9: which requests are ingested *)

(** C9.  The handler takes the ingestion branch exactly when the name of
    some header on the wire contains [twilio], letters compared without
    regard to case: line 113 looks for [twilio] in the keys of
    [request.headers], which are the wire names in lower case.  Every other
    request, and no request of that kind, gets the generic rejection. *)
Theorem ingestion_iff_twilio_header (cfg : config) (w : world)
  (request : http_request) (db : database) :
  (is_twilio_request request = true ↔
   ∃ kv, kv ∈ rawHeaders request ∧ occurs_in_ci "twilio" kv.1)
  ∧ (is_twilio_request request = true ↔
     ∃ k, k ∈ header_keys (headers request) ∧ occurs_in "twilio" k)
  ∧ (response (handler cfg w request db) = not_authenticated ↔
     ¬ ∃ kv, kv ∈ rawHeaders request ∧ occurs_in_ci "twilio" kv.1).
Proof.
  split; [apply is_twilio_request_spec|].
  split; [apply is_twilio_request_keys|].
  rewrite <- is_twilio_request_spec.
  destruct (is_twilio_request request) eqn:Hgate.
  - split; [|done]. intros Hresp. exfalso. revert Hresp.
    unfold handler. rewrite Hgate.
    destruct (get_prop (body request) "SmsMessageSid") as [e|sid]; [done|].
    destruct (insertSMS (assemble cfg w request sid) db) as [[e|u] db1];
      [done|].
    by destruct (isAuthenticTwilioResponse _).
  - split; [done|]. intros _. by rewrite handler_foreign.
Qed.

(** ** C10: the stored snapshot *)

(** C10.  Whenever the handler stores an audit row, its [raw_request] is
    [JSON.stringify] of the finished object [t]: the seven properties in the
    order they were set, ending with the verdict and with the identity hash,
    which is the [hash_id] of the message row stored with it. *)
Theorem raw_request_is_snapshot (cfg : config) (w : world)
  (request : http_request) (db : database) (a : TwilioMessages.row) :
  twilio_messages (stored (handler cfg w request db))
  = twilio_messages db ++ [a] →
  let t := assemble cfg w request (field (body request) "SmsMessageSid") in
  ∃ sig tok body_text m,
    headers request !! "x-twilio-signature" = Some sig
    ∧ headers request !! "i-twilio-idempotency-token" = Some tok
    ∧ JSON_stringify (body request) = Some body_text
    ∧ JSON_stringify (twilio_obj_value t)
      = Some ("{" +:+
              join ","
                [json_quote "receivedOn" +:+ ":" +:+ number_to_string (clock w);
                 json_quote "TwilioSignature" +:+ ":" +:+ json_quote sig;
                 json_quote "TwilioIdempotencyToken" +:+ ":" +:+ json_quote tok;
                 json_quote "requestBody" +:+ ":" +:+ body_text;
                 json_quote "webhookEndpoint" +:+ ":"
                 +:+ json_quote (WEBHOOK_ENDPOINT cfg);
                 json_quote "isAuthenticTwilioResponse" +:+ ":"
                 +:+ (if isAuthenticTwilioResponse t then "true" else "false");
                 json_quote "requestUID" +:+ ":" +:+ json_quote (requestUID t)]
              +:+ "}")
    ∧ TwilioMessages.raw_request a
      = SqlText (default "" (JSON_stringify (twilio_obj_value t)))
    ∧ sms (stored (handler cfg w request db)) = sms db ++ [m]
    ∧ Sms.hash_id m = SqlText (requestUID t).
Proof.
  intros Hrow t.
  assert (complete_request request = true) as Hc.
  { destruct (complete_request request) eqn:Hc; [done|]. exfalso.
    assert (stored (handler cfg w request db) = db) as Hsame.
    { destruct (is_twilio_request request) eqn:Hgate.
      - by destruct (handler_incomplete cfg w request db Hgate Hc) as [e ->].
      - by rewrite handler_foreign. }
    rewrite Hsame in Hrow. apply (f_equal length) in Hrow.
    rewrite length_app in Hrow. simpl in Hrow. lia. }
  destruct (handler_complete cfg w request db Hc) as [Hstored _].
  fold t in Hstored. rewrite Hstored in Hrow |- *. cbn [twilio_messages sms] in *.
  apply app_inv_head in Hrow. injection Hrow as <-.
  pose proof Hc as Hparts. unfold complete_request in Hparts.
  apply andb_prop in Hparts as [[Hsig Htok]%andb_prop Hfields].
  apply bool_decide_eq_true in Hsig as [sig Hsig].
  apply bool_decide_eq_true in Htok as [tok Htok].
  assert (∃ props, body request = JObj props) as [props Hbody].
  { destruct (body request); try discriminate Hfields. eauto. }
  destruct (JSON_stringify (body request)) as [body_text|] eqn:Hjson;
    [|by rewrite Hbody in Hjson].
  exists sig, tok, body_text, (message_row t).
  split; [done|]. split; [done|]. split; [done|].
  split; [|done].
  unfold t, twilio_obj_value, assemble. cbn [receivedOn TwilioSignature
    TwilioIdempotencyToken requestBody webhookEndpoint
    isAuthenticTwilioResponse requestUID].
  unfold header. rewrite Hsig, Htok.
  cbn [JSON_stringify omap list_omap]. rewrite Hjson.
  by destruct (validateRequest _ _ _ _).
Qed.

End Claims.

(** * The claims on the sample requests *)

(** Deciding [occurs_in_ci] by running the test of line 113 on the
    lower-cased name. *)
Lemma occurs_in_ci_test (pat s : string) :
  occurs_in_ci pat s ↔
  truthy (Z.lnot (indexOf (to_lower s) (to_lower pat))) = true.
Proof. by rewrite lnot_indexOf_truthy, occurs_in_lower. Qed.

(** C1, counterexample: the same request, handled twice with everything
    equal but the salt drawn by [argon2.hash], is stored under two different
    identity hashes. *)
Lemma same_request_two_identity_hashes :
  Sms.hash_id <$>
    sms (stored (handler (H := sample_externals) sample_config
                   (sample_world salt_a) authentic_request empty_database))
  ≠ Sms.hash_id <$>
      sms (stored (handler (H := sample_externals) sample_config
                     (sample_world salt_b) authentic_request empty_database)).
Proof. vm_compute. discriminate. Qed.

Lemma identity_hash_equal_iff_same_salt_witness :
  (Sms.hash_id <$>
     last (sms (stored (handler (H := sample_externals) sample_config
                          (sample_world salt_a) authentic_request
                          empty_database)))
   = Sms.hash_id <$>
       last (sms (stored (handler (H := sample_externals) sample_config
                            (sample_world salt_b) authentic_request
                            empty_database))))
  ↔ salt_a = salt_b.
Proof.
  apply (identity_hash_equal_iff_same_salt (E := sample_externals)
           sample_config sample_config (sample_world salt_a)
           (sample_world salt_b) authentic_request authentic_request
           empty_database empty_database);
    vm_compute; reflexivity.
Defined.

(** C3, counterexample: with one character of the signature changed the
    verdict goes from true to false, and the identity hash changes too. *)
Lemma tampered_signature_changes_identity_hash :
  TwilioMessages.is_authentic_request <$>
    twilio_messages
      (stored (handler (H := sample_externals) sample_config
                 (sample_world salt_a) authentic_request empty_database))
  = [SqlReal 1]
  ∧ TwilioMessages.is_authentic_request <$>
      twilio_messages
        (stored (handler (H := sample_externals) sample_config
                   (sample_world salt_a) tampered_request empty_database))
    = [SqlReal 0]
  ∧ Sms.hash_id <$>
      sms (stored (handler (H := sample_externals) sample_config
                     (sample_world salt_a) tampered_request empty_database))
    ≠ Sms.hash_id <$>
        sms (stored (handler (H := sample_externals) sample_config
                       (sample_world salt_a) authentic_request
                       empty_database)).
Proof. split; [|split]; vm_compute; [reflexivity..|discriminate]. Qed.

Lemma tampering_flips_verdict_witness :
  let t :=
    assemble (H := with_spec_verifier sample_externals sample_expected)
      sample_config (sample_world salt_a) authentic_request (JStr "SM123") in
  let t' :=
    assemble (H := with_spec_verifier sample_externals sample_expected)
      sample_config (sample_world salt_a) tampered_request (JStr "SM123") in
  let text :=
    uid_preimage (H := with_spec_verifier sample_externals sample_expected)
      (TwilioSignature t) (TwilioIdempotencyToken t) (JStr "SM123") in
  let text' :=
    uid_preimage (H := with_spec_verifier sample_externals sample_expected)
      (TwilioSignature t') (TwilioIdempotencyToken t') (JStr "SM123") in
  isAuthenticTwilioResponse t' = false
  ∧ text' ≠ text
  ∧ (requestUID t' = requestUID t →
     argon2_raw
       (Externals := with_spec_verifier sample_externals sample_expected)
       uid_options (salt (sample_world salt_a)) text'
     = argon2_raw
         (Externals := with_spec_verifier sample_externals sample_expected)
         uid_options (salt (sample_world salt_a)) text)
  ∧ (∀ verify : string → jsval → string → jsval → bool,
       requestUID
         (assemble (H := with_verifier sample_externals verify) sample_config
            (sample_world salt_a) authentic_request (JStr "SM123"))
       = requestUID t
       ∧ requestUID
           (assemble (H := with_verifier sample_externals verify)
              sample_config (sample_world salt_a) tampered_request
              (JStr "SM123"))
         = requestUID t').
Proof.
  apply (tampering_flips_verdict_and_changes_preimage (E := sample_externals)
           sample_expected sample_config (sample_world salt_a)
           authentic_request tampered_request (JStr "SM123") "sig-secre" ""
           "t"%char "u"%char);
    first [discriminate | vm_compute; reflexivity].
Defined.

(** C4, counterexample: a request that carries a Twilio header (the
    signature) but no idempotency token is taken for a Twilio request, and
    nothing is stored for it. *)
Lemma tokenless_request_stores_nothing :
  is_twilio_request tokenless_request = true
  ∧ stored (handler (H := sample_externals) sample_config
              (sample_world salt_a) tokenless_request empty_database)
    = empty_database
  ∧ ∃ e, response (handler (H := sample_externals) sample_config
                     (sample_world salt_a) tokenless_request empty_database)
         = Rejected e.
Proof. split; [|split]; vm_compute; [reflexivity..|by eexists]. Qed.

Lemma complete_request_stores_one_row_each_witness :
  ∃ a m,
    stored (handler (H := sample_externals) sample_config
              (sample_world salt_a) tampered_request empty_database)
    = {| twilio_messages := twilio_messages empty_database ++ [a];
         sms := sms empty_database ++ [m] |}
    ∧ TwilioMessages.is_authentic_request a
      = SqlReal (if validateRequest (Externals := sample_externals)
                      (TWILIO_AUTH_TOKEN sample_config)
                      (header (headers tampered_request) "x-twilio-signature")
                      (WEBHOOK_ENDPOINT sample_config) (body tampered_request)
                 then 1%Q else 0%Q).
Proof.
  apply (complete_request_stores_one_row_each (E := sample_externals)
           sample_config (sample_world salt_a) tampered_request
           empty_database).
  vm_compute. reflexivity.
Defined.

Lemma no_twilio_header_no_write_witness :
  stored (handler (H := sample_externals) sample_config (sample_world salt_a)
            foreign_request empty_database)
  = empty_database
  ∧ response (handler (H := sample_externals) sample_config
                (sample_world salt_a) foreign_request empty_database)
    = Responded {| content_type := "application/json"; code := None |}
        (JObj [("error", JStr "Not Authenticated.")]).
Proof.
  apply (no_twilio_header_no_write (E := sample_externals) sample_config
           (sample_world salt_a) foreign_request empty_database).
  intros kv Hin Hocc. apply occurs_in_ci_test in Hocc.
  simpl in Hin.
  repeat (apply elem_of_cons in Hin as [->|Hin]);
    [vm_compute in Hocc; discriminate Hocc..|].
  by apply elem_of_nil in Hin.
Defined.

(** C6, counterexample: a request on the ingestion branch whose signature
    verifies but whose body has no [Body] field is not answered with 200:
    the second insert fails and the handler throws. *)
Lemma verified_request_not_acknowledged :
  is_twilio_request textless_request = true
  ∧ validateRequest (Externals := sample_externals)
      (TWILIO_AUTH_TOKEN sample_config)
      (header (headers textless_request) "x-twilio-signature")
      (WEBHOOK_ENDPOINT sample_config) (body textless_request)
    = true
  ∧ ∃ e, response (handler (H := sample_externals) sample_config
                     (sample_world salt_a) textless_request empty_database)
         = Rejected e.
Proof. split; [|split]; vm_compute; [reflexivity..|by eexists]. Qed.

Lemma response_follows_verdict_witness :
  if validateRequest (Externals := sample_externals)
       (TWILIO_AUTH_TOKEN sample_config)
       (header (headers authentic_request) "x-twilio-signature")
       (WEBHOOK_ENDPOINT sample_config) (body authentic_request)
  then {| content_type := "text/html"; code := Some 200%Z |}
       = {| content_type := "text/html"; code := Some 200%Z |}
       ∧ JStr "<Response></Response>" = JStr "<Response></Response>"
  else {| content_type := "text/html"; code := Some 200%Z |}
       = {| content_type := "application/json"; code := Some 400%Z |}
       ∧ JStr "<Response></Response>"
         = JObj [("error", JStr "Invalid Twilio request found.")].
Proof.
  apply (response_follows_verdict (E := sample_externals) sample_config
           (sample_world salt_a) authentic_request empty_database);
    vm_compute; reflexivity.
Defined.

(** C7, counterexample: a request whose [Body] field came twice, sent and
    then sent again with the same signature, token and fields, is stored
    neither time: both inserts of the message row throw. *)
Lemma replayed_incomplete_request_never_stored :
  (∃ e, response (handler (H := sample_externals) sample_config
                    (sample_world salt_a) doubled_text_request
                    empty_database)
        = Rejected e)
  ∧ (∃ e, response
            (handler (H := sample_externals) sample_config
               (sample_world salt_b) doubled_text_request
               (stored (handler (H := sample_externals) sample_config
                          (sample_world salt_a) doubled_text_request
                          empty_database)))
          = Rejected e)
  ∧ stored
      (handler (H := sample_externals) sample_config (sample_world salt_b)
         doubled_text_request
         (stored (handler (H := sample_externals) sample_config
                    (sample_world salt_a) doubled_text_request
                    empty_database)))
    = empty_database.
Proof. split; [|split]; vm_compute; [by eexists..|reflexivity]. Qed.

Lemma replayed_request_stored_twice_witness :
  ∃ a1 a2 m1 m2 r1 p1 r2 p2,
    response (handler (H := sample_externals) sample_config
                (sample_world salt_a) authentic_request empty_database)
    = Responded r1 p1
    ∧ response
        (handler (H := sample_externals) sample_config (sample_world salt_b)
           padded_request
           (stored (handler (H := sample_externals) sample_config
                      (sample_world salt_a) authentic_request
                      empty_database)))
      = Responded r2 p2
    ∧ stored
        (handler (H := sample_externals) sample_config (sample_world salt_b)
           padded_request
           (stored (handler (H := sample_externals) sample_config
                      (sample_world salt_a) authentic_request
                      empty_database)))
      = {| twilio_messages := twilio_messages empty_database ++ [a1; a2];
           sms := sms empty_database ++ [m1; m2] |}
    ∧ TwilioMessages.twilio_signature a1 = TwilioMessages.twilio_signature a2
    ∧ TwilioMessages.twilio_idempotency_token a1
      = TwilioMessages.twilio_idempotency_token a2
    ∧ TwilioMessages.twilio_sms_message_sid a1
      = TwilioMessages.twilio_sms_message_sid a2.
Proof.
  apply (replayed_request_stored_twice (E := sample_externals) sample_config
           (sample_world salt_a) (sample_world salt_b) authentic_request
           padded_request empty_database);
    first [by repeat constructor | vm_compute; reflexivity].
Defined.

(** C8, counterexample: two distinct triples, none of whose members
    contains the separator [###], give the same text to hash. *)
Lemma distinct_triples_same_preimage :
  ("a#", "b", "c") ≠ ("a", "#b", "c")
  ∧ indexOf "a#" "###" = (-1)%Z ∧ indexOf "b" "###" = (-1)%Z
  ∧ indexOf "a" "###" = (-1)%Z ∧ indexOf "#b" "###" = (-1)%Z
  ∧ indexOf "c" "###" = (-1)%Z
  ∧ uid_preimage (H := sample_externals) (JStr "a#") (JStr "b") (JStr "c")
    = uid_preimage (H := sample_externals) (JStr "a") (JStr "#b") (JStr "c").
Proof. repeat split; try reflexivity. discriminate. Qed.

Lemma uid_preimage_unambiguous_witness :
  uid_preimage (H := sample_externals) (JStr "sig-secret") (JStr "tok-1")
    (JStr "SM123")
  ≠ uid_preimage (H := sample_externals) (JStr "sig-secret") (JStr "tok-1")
      (JStr "SM124").
Proof.
  apply (uid_preimage_unambiguous (E := sample_externals) "sig-secret"
           "tok-1" "SM123" "sig-secret" "tok-1" "SM124");
    try reflexivity.
  discriminate.
Defined.

Lemma raw_request_is_snapshot_witness :
  let t :=
    assemble (H := sample_externals) sample_config (sample_world salt_a)
      authentic_request (field (body authentic_request) "SmsMessageSid") in
  ∃ sig tok body_text m,
    headers authentic_request !! "x-twilio-signature" = Some sig
    ∧ headers authentic_request !! "i-twilio-idempotency-token" = Some tok
    ∧ JSON_stringify (H := sample_externals) (body authentic_request)
      = Some body_text
    ∧ JSON_stringify (H := sample_externals) (twilio_obj_value t)
      = Some ("{" +:+
              join ","
                [json_quote "receivedOn" +:+ ":"
                 +:+ number_to_string (Externals := sample_externals)
                       (clock (sample_world salt_a));
                 json_quote "TwilioSignature" +:+ ":" +:+ json_quote sig;
                 json_quote "TwilioIdempotencyToken" +:+ ":" +:+ json_quote tok;
                 json_quote "requestBody" +:+ ":" +:+ body_text;
                 json_quote "webhookEndpoint" +:+ ":"
                 +:+ json_quote (WEBHOOK_ENDPOINT sample_config);
                 json_quote "isAuthenticTwilioResponse" +:+ ":"
                 +:+ (if isAuthenticTwilioResponse t then "true" else "false");
                 json_quote "requestUID" +:+ ":" +:+ json_quote (requestUID t)]
              +:+ "}")
    ∧ TwilioMessages.raw_request (audit_row (H := sample_externals) t)
      = SqlText (default "" (JSON_stringify (H := sample_externals)
                               (twilio_obj_value t)))
    ∧ sms (stored (handler (H := sample_externals) sample_config
                     (sample_world salt_a) authentic_request empty_database))
      = sms empty_database ++ [m]
    ∧ Sms.hash_id m = SqlText (requestUID t).
Proof.
  apply (raw_request_is_snapshot (E := sample_externals) sample_config
           (sample_world salt_a) authentic_request empty_database).
  vm_compute. reflexivity.
Defined.

(** * Further properties of the handler *)

(** X1.  Whatever the request, the handler leaves the database as it was or with
    exactly one more row in each table: no request leaves an audit row
    without its message row. *)
Theorem handler_stores_both_rows_or_nothing {E : Externals} (cfg : config)
  (w : world) (request : http_request) (db : database) :
  stored (handler cfg w request db) = db
  ∨ ∃ a m, stored (handler cfg w request db)
           = {| twilio_messages := twilio_messages db ++ [a];
                sms := sms db ++ [m] |}.
Proof.
  destruct (is_twilio_request request) eqn:Hgate.
  - destruct (complete_request request) eqn:Hc.
    + right. destruct (handler_complete cfg w request db Hc) as [-> _]. eauto.
    + left. by destruct (handler_incomplete cfg w request db Hgate Hc) as [e ->].
  - left. by rewrite handler_foreign.
Qed.

Section Further.
Context {E : Externals}.

(** The second statement stores one row in [sms] or changes nothing. *)
Lemma smsInsertStatement_run_cases (params : list (string * jsval))
  (db : database) :
  (∃ e, smsInsertStatement_run params db = (Throw e, db)) ∨
  (∃ r, smsInsertStatement_run params db =
        (Return tt,
         {| twilio_messages := twilio_messages db; sms := sms db ++ [r] |})).
Proof.
  unfold smsInsertStatement_run.
  match goal with |- context [match ?b with Throw _ => _ | Return _ => _ end] =>
    destruct b as [e|r] end; [left; by exists e | right; by exists r].
Qed.

(** X2.  The rollback at work.  When everything the first statement binds is a
    string or a number but one of [From], [To], [Body] is not, the function
    given to [db.transaction] has stored the audit row by the time the second
    statement throws; [insertSMS] throws the same exception and leaves the
    database without that row. *)
Theorem rollback_discards_audit_row (t : twilio_obj) (db : database)
  (props : list (string * jsval)) :
  storable (TwilioSignature t) = true →
  storable (TwilioIdempotencyToken t) = true →
  requestBody t = JObj props →
  forallb (fun k => storable (lookup_prop k props))
    ["SmsMessageSid"; "AccountSid"; "ApiVersion"] = true →
  forallb (fun k => storable (lookup_prop k props)) ["From"; "To"; "Body"]
  = false →
  ∃ e,
    insertSMS_body t db
    = (Throw e,
       {| twilio_messages := twilio_messages db ++ [audit_row t];
          sms := sms db |})
    ∧ insertSMS t db = (Throw e, db).
Proof.
  intros Hsig Htok Hbody Hfirst Hsecond.
  cbn [forallb] in Hfirst.
  apply andb_prop in Hfirst as [Hsid [Hacc [Hver _]%andb_prop]%andb_prop].
  destruct (JSON_stringify_obj_text t) as [text Htext].
  assert (∃ e, insertSMS_body t db
               = (Throw e,
                  {| twilio_messages := twilio_messages db ++ [audit_row t];
                     sms := sms db |})) as [e He].
  { unfold insertSMS_body, audit_row, mbind, M_bind, lift.
    rewrite Hbody. simpl get_prop. cbv beta iota.
    unfold twilioRequestInsertStatement_run, bind_named.
    rewrite Htext. simpl own_prop. cbv beta iota.
    rewrite !bind_value_storable by done.
    unfold check_not_null, mbind, result_bind, mret, result_ret.
    cbn [TwilioMessages.columns forallb TwilioMessages.recevied_on
         TwilioMessages.twilio_signature
         TwilioMessages.twilio_idempotency_token
         TwilioMessages.twilio_sms_message_sid
         TwilioMessages.twilio_account_sid TwilioMessages.twilio_api_version
         TwilioMessages.webhook_endpoint TwilioMessages.is_authentic_request
         TwilioMessages.raw_request].
    rewrite !not_null_sql_of, Hsig, Htok, Hsid, Hacc, Hver.
    cbn [storable andb field sql_of default from_option id].
    match goal with |- context [smsInsertStatement_run ?p ?d] =>
      destruct (smsInsertStatement_run_cases p d) as [[e ->]|[m Hrun]] end;
      [by exists e|].
    exfalso. apply smsInsertStatement_run_return in Hrun.
    apply Forall_cons in Hrun as [(? & [= <-] & Hfrom) Hrun].
    apply Forall_cons in Hrun as [(? & [= <-] & Hto) Hrun].
    apply Forall_cons in Hrun as [(? & [= <-] & Htxt) _].
    cbn [forallb] in Hsecond. rewrite Hfrom, Hto, Htxt in Hsecond.
    discriminate Hsecond. }
  exists e. split; [exact He|]. unfold insertSMS.
  by eapply transaction_throw.
Qed.

(** What the handler stores, answers and logs for a complete request. *)
Lemma handler_complete_run (cfg : config) (w : world)
  (request : http_request) (db : database) :
  complete_request request = true →
  let sid := field (body request) "SmsMessageSid" in
  let t := assemble cfg w request sid in
  handler cfg w request db
  = {| response :=
         (if isAuthenticTwilioResponse t then
            Responded {| content_type := "text/html"; code := Some 200%Z |}
              (JStr "<Response></Response>")
          else
            Responded {| content_type := "application/json";
                         code := Some 400%Z |}
              (JObj [("error", JStr "Invalid Twilio request found.")]));
       stored := {| twilio_messages := twilio_messages db ++ [audit_row t];
                    sms := sms db ++ [message_row t] |};
       logged :=
         ["[+] Inserted a "
          +:+ (if isAuthenticTwilioResponse t then "valid" else "invalid")
          +:+ " Twilio SMS: " +:+ to_string sid] |}.
Proof.
  intros Hc sid t.
  assert (complete_obj t = true) as Ht
    by (unfold t; by rewrite complete_obj_assemble).
  unfold handler.
  rewrite (complete_request_is_twilio _ Hc), (complete_request_sid _ Hc).
  fold sid t. rewrite (insertSMS_complete t db Ht).
  by destruct (isAuthenticTwilioResponse t).
Qed.

(** A complete request passes the test of line 113, so an incomplete one
    stores nothing whether it passes or not. *)
Lemma handler_stored (cfg : config) (w : world) (request : http_request)
  (db : database) :
  stored (handler cfg w request db)
  = if complete_request request then
      {| twilio_messages :=
           twilio_messages db ++ [audit_row_of cfg (w, request)];
         sms := sms db ++ [message_row_of cfg (w, request)] |}
    else db.
Proof.
  destruct (complete_request request) eqn:Hc.
  - by rewrite (handler_complete_run cfg w request db Hc).
  - destruct (is_twilio_request request) eqn:Hgate.
    + by destruct (handler_incomplete cfg w request db Hgate Hc) as [e ->].
    + by rewrite handler_foreign.
Qed.

(** ** When the handler answers *)

(** X3.  A request that carries a Twilio header is answered (with 200 or 400)
    exactly when its two Twilio headers are present and its six message
    fields are strings or numbers; on every other such request the handler
    throws. *)
Theorem handler_answers_iff_complete (cfg : config) (w : world)
  (request : http_request) (db : database) :
  is_twilio_request request = true →
  (∃ r payload, response (handler cfg w request db) = Responded r payload)
  ↔ complete_request request = true.
Proof.
  intros Hgate. split.
  - intros (r & payload & Hresp).
    destruct (complete_request request) eqn:Hc; [done|].
    destruct (handler_incomplete cfg w request db Hgate Hc) as [e He].
    rewrite He in Hresp. discriminate Hresp.
  - intros Hc. rewrite (handler_complete_run cfg w request db Hc).
    cbn [response]. destruct (isAuthenticTwilioResponse _); eauto.
Qed.

(** X5.  The handler sets a status code only after the transaction has
    committed: an answer with status 200 or 400 means that both rows are
    stored, with [is_authentic_request] 1 behind a 200 and 0 behind a 400.
    No request is acknowledged, or refused as invalid, without a record. *)
Theorem status_answers_are_backed_by_rows (cfg : config) (w : world)
  (request : http_request) (db : database) (r : reply) (payload : jsval)
  (status : Z) :
  response (handler cfg w request db) = Responded r payload →
  code r = Some status →
  ∃ a m,
    stored (handler cfg w request db)
    = {| twilio_messages := twilio_messages db ++ [a]; sms := sms db ++ [m] |}
    ∧ ((status = 200%Z ∧ TwilioMessages.is_authentic_request a = SqlReal 1%Q)
       ∨ (status = 400%Z
          ∧ TwilioMessages.is_authentic_request a = SqlReal 0%Q)).
Proof.
  intros Hresp Hcode.
  destruct (is_twilio_request request) eqn:Hgate.
  - destruct (complete_request request) eqn:Hc.
    + rewrite (handler_complete_run cfg w request db Hc) in Hresp |- *.
      cbn [response stored] in *. eexists _, _. split; [reflexivity|].
      cbn [audit_row TwilioMessages.is_authentic_request].
      destruct (isAuthenticTwilioResponse _); injection Hresp as <- _;
        cbn in Hcode; injection Hcode as <-; [by left | by right].
    + destruct (handler_incomplete cfg w request db Hgate Hc) as [e He].
      rewrite He in Hresp. discriminate Hresp.
  - rewrite handler_foreign in Hresp by done. injection Hresp as <- _.
    discriminate Hcode.
Qed.

(** ** What the rows hold *)

(** X6.  For a request whose two Twilio headers are present and whose six
    message fields are strings, the stored rows hold the request as it came:
    the two header values, the configured endpoint and the six fields, each
    as the text that was received. *)
Theorem stored_rows_carry_the_request (cfg : config) (w : world)
  (request : http_request) (db : database)
  (sig tok sid account version from to text : string) :
  headers request !! "x-twilio-signature" = Some sig →
  headers request !! "i-twilio-idempotency-token" = Some tok →
  field (body request) "SmsMessageSid" = JStr sid →
  field (body request) "AccountSid" = JStr account →
  field (body request) "ApiVersion" = JStr version →
  field (body request) "From" = JStr from →
  field (body request) "To" = JStr to →
  field (body request) "Body" = JStr text →
  ∃ a m,
    stored (handler cfg w request db)
    = {| twilio_messages := twilio_messages db ++ [a];
         sms := sms db ++ [m] |}
    ∧ TwilioMessages.twilio_signature a = SqlText sig
    ∧ TwilioMessages.twilio_idempotency_token a = SqlText tok
    ∧ TwilioMessages.twilio_sms_message_sid a = SqlText sid
    ∧ TwilioMessages.twilio_account_sid a = SqlText account
    ∧ TwilioMessages.twilio_api_version a = SqlText version
    ∧ TwilioMessages.webhook_endpoint a = SqlText (WEBHOOK_ENDPOINT cfg)
    ∧ Sms.sender m = SqlText from
    ∧ Sms.receiver m = SqlText to
    ∧ Sms.body m = SqlText text.
Proof.
  intros Hsig Htok Hsid Hacc Hver Hfrom Hto Htext.
  assert (complete_request request = true) as Hc.
  { unfold complete_request, message_fields. cbn [forallb].
    rewrite !field_storable_field, Hsig, Htok, Hsid, Hacc, Hver, Hfrom, Hto,
      Htext.
    cbn [storable andb]. rewrite !bool_decide_eq_true_2 by eauto. done. }
  eexists _, _.
  split; [by rewrite (handler_complete_run cfg w request db Hc)|].
  cbn. unfold header.
  rewrite Hsig, Htok, Hsid, Hacc, Hver, Hfrom, Hto, Htext. repeat split.
Qed.

(** ** The console *)

(** X7.  The handler writes to the console exactly when it has stored the two
    rows: one line that says whether the request verified and names the
    message id.  A request that is turned away or makes the handler throw
    leaves no line. *)
Theorem handler_logs_one_line_per_stored_request (cfg : config) (w : world)
  (request : http_request) (db : database) :
  logged (handler cfg w request db)
  = if complete_request request then
      ["[+] Inserted a "
       +:+ (if validateRequest (TWILIO_AUTH_TOKEN cfg)
                 (header (headers request) "x-twilio-signature")
                 (WEBHOOK_ENDPOINT cfg) (body request)
            then "valid" else "invalid")
       +:+ " Twilio SMS: "
       +:+ to_string (field (body request) "SmsMessageSid")]
    else [].
Proof.
  destruct (complete_request request) eqn:Hc.
  - by rewrite (handler_complete_run cfg w request db Hc).
  - destruct (is_twilio_request request) eqn:Hgate.
    + by destruct (handler_incomplete cfg w request db Hgate Hc) as [e ->].
    + by rewrite handler_foreign.
Qed.

(** ** The database is never read *)

Lemma twilioRequestInsertStatement_run_any_database
  (params : list (string * jsval)) (db1 db2 : database) :
  (twilioRequestInsertStatement_run params db1).1
  = (twilioRequestInsertStatement_run params db2).1.
Proof.
  unfold twilioRequestInsertStatement_run.
  match goal with |- context [match ?b with Throw _ => _ | Return _ => _ end] =>
    by destruct b end.
Qed.

Lemma smsInsertStatement_run_any_database (params : list (string * jsval))
  (db1 db2 : database) :
  (smsInsertStatement_run params db1).1 = (smsInsertStatement_run params db2).1.
Proof.
  unfold smsInsertStatement_run.
  match goal with |- context [match ?b with Throw _ => _ | Return _ => _ end] =>
    by destruct b end.
Qed.

Lemma insertSMS_any_database (t : twilio_obj) (db1 db2 : database) :
  (insertSMS t db1).1 = (insertSMS t db2).1.
Proof.
  assert ((insertSMS_body t db1).1 = (insertSMS_body t db2).1) as Hbody.
  { unfold insertSMS_body, mbind, M_bind, lift.
    destruct (get_prop (requestBody t) "SmsMessageSid") as [?|sid]; [done|].
    destruct (get_prop (requestBody t) "AccountSid") as [?|account]; [done|].
    destruct (get_prop (requestBody t) "ApiVersion") as [?|version]; [done|].
    match goal with |- context [twilioRequestInsertStatement_run ?p db1] =>
      pose proof (twilioRequestInsertStatement_run_any_database p db1 db2)
        as Hfirst;
      destruct (twilioRequestInsertStatement_run p db1) as [[e1|u1] d1];
      destruct (twilioRequestInsertStatement_run p db2) as [[e2|u2] d2]
    end; simpl in Hfirst; try done.
    destruct (get_prop (requestBody t) "From") as [?|from]; [done|].
    destruct (get_prop (requestBody t) "To") as [?|to]; [done|].
    destruct (get_prop (requestBody t) "Body") as [?|text]; [done|].
    apply smsInsertStatement_run_any_database. }
  unfold insertSMS, transaction.
  destruct (insertSMS_body t db1) as [[e1|u1] d1];
    destruct (insertSMS_body t db2) as [[e2|u2] d2]; simpl in *; congruence.
Qed.

(** The answer to a request, and what is logged for it, do not depend on
    what the database holds. *)
Lemma handler_any_database (cfg : config) (w : world)
  (request : http_request) (db1 db2 : database) :
  response (handler cfg w request db1) = response (handler cfg w request db2)
  ∧ logged (handler cfg w request db1) = logged (handler cfg w request db2).
Proof.
  unfold handler. destruct (is_twilio_request request); [|done].
  destruct (get_prop (body request) "SmsMessageSid") as [e|sid]; [done|].
  pose proof (insertSMS_any_database (assemble cfg w request sid) db1 db2)
    as Hins.
  destruct (insertSMS (assemble cfg w request sid) db1) as [[e1|u1] d1];
    destruct (insertSMS (assemble cfg w request sid) db2) as [[e2|u2] d2];
    simpl in Hins; try done.
  - by injection Hins as ->.
  - by destruct (isAuthenticTwilioResponse _).
Qed.

(** ** A run of the server *)

(** X8.  The handler never looks at what is stored: in a run of the server every
    request gets exactly the answer it would get alone on an empty database,
    however often it or any other request was stored before. *)
Theorem serve_answers_do_not_depend_on_the_database (cfg : config)
  (arrivals : list (world * http_request)) (db : database) :
  (serve cfg arrivals db).1
  = map (fun a => response (handler cfg a.1 a.2 empty_database)) arrivals.
Proof.
  revert db. induction arrivals as [|[w request] rest IH]; intros db;
    [done|].
  cbn [serve]. specialize (IH (stored (handler cfg w request db))).
  destruct (serve cfg rest (stored (handler cfg w request db)))
    as [answers db'].
  cbn in *. rewrite IH. f_equal.
  apply handler_any_database.
Qed.

(** X9.  After a run of the server the two tables hold what they held before,
    followed by one row for each complete request of the run, in the order
    in which the requests were handled; nothing is changed or removed, and
    no other request leaves a row. *)
Theorem serve_stores_complete_requests_in_order (cfg : config)
  (arrivals : list (world * http_request)) (db : database) :
  let complete := List.filter (fun a => complete_request a.2) arrivals in
  twilio_messages (serve cfg arrivals db).2
  = twilio_messages db ++ map (audit_row_of cfg) complete
  ∧ sms (serve cfg arrivals db).2
    = sms db ++ map (message_row_of cfg) complete.
Proof.
  revert db. induction arrivals as [|[w request] rest IH]; intros db.
  - cbn. by rewrite !app_nil_r.
  - cbn [serve List.filter]. specialize (IH (stored (handler cfg w request db))).
    destruct (serve cfg rest (stored (handler cfg w request db)))
      as [answers db'].
    cbn [snd fst] in *. rewrite handler_stored in IH.
    destruct IH as [-> ->].
    destruct (complete_request request); cbn [twilio_messages sms map];
      by rewrite <- ?app_assoc.
Qed.

Lemma audit_row_of_ok (cfg : config) (a : world * http_request) :
  complete_request a.2 = true → audit_row_ok (audit_row_of cfg a).
Proof.
  intros Hc. unfold audit_row_of.
  set (t := assemble cfg a.1 a.2 (field (body a.2) "SmsMessageSid")).
  assert (complete_obj t = true) as Ht
    by (unfold t; by rewrite complete_obj_assemble).
  destruct (complete_obj_body t Ht) as (props & Hbody & Hfields).
  apply andb_prop in Ht as [[Hsig Htok]%andb_prop _].
  unfold message_fields in Hfields.
  repeat (apply Forall_cons in Hfields as [? Hfields]).
  split.
  - unfold audit_row. cbn [TwilioMessages.columns forallb
      TwilioMessages.recevied_on TwilioMessages.twilio_signature
      TwilioMessages.twilio_idempotency_token
      TwilioMessages.twilio_sms_message_sid TwilioMessages.twilio_account_sid
      TwilioMessages.twilio_api_version TwilioMessages.webhook_endpoint
      TwilioMessages.is_authentic_request TwilioMessages.raw_request].
    rewrite Hbody. cbn [field]. rewrite !not_null_sql_of.
    repeat match goal with Hs : storable _ = true |- _ =>
      rewrite Hs; clear Hs end.
    reflexivity.
  - unfold audit_row. cbn [TwilioMessages.is_authentic_request].
    destruct (isAuthenticTwilioResponse t); [by right | by left].
Qed.

Lemma message_row_of_ok (cfg : config) (a : world * http_request) :
  complete_request a.2 = true → message_row_ok (message_row_of cfg a).
Proof.
  intros Hc. unfold message_row_of, message_row_ok.
  set (t := assemble cfg a.1 a.2 (field (body a.2) "SmsMessageSid")).
  assert (complete_obj t = true) as Ht
    by (unfold t; by rewrite complete_obj_assemble).
  destruct (complete_obj_body t Ht) as (props & Hbody & Hfields).
  unfold message_fields in Hfields.
  repeat (apply Forall_cons in Hfields as [? Hfields]).
  unfold message_row. cbn [Sms.columns forallb Sms.hash_id Sms.sender
    Sms.receiver Sms.body Sms.received_on].
  rewrite Hbody. cbn [field]. rewrite !not_null_sql_of.
  repeat match goal with Hs : storable _ = true |- _ =>
    rewrite Hs; clear Hs end.
  reflexivity.
Qed.

(** X10.  A run of the server keeps a consistent database consistent: no column
    ever holds NULL, [is_authentic_request] is 0 or 1 in every audit row,
    and the two tables stay in step, the n-th audit row and the n-th message
    row carrying the same arrival time. *)
Theorem serve_keeps_database_consistent (cfg : config)
  (arrivals : list (world * http_request)) (db : database) :
  consistent db → consistent (serve cfg arrivals db).2.
Proof.
  intros (Hpairs & Haudit & Hmessages). unfold consistent.
  destruct (serve_stores_complete_requests_in_order cfg arrivals db)
    as [-> ->].
  assert (Forall (fun a => complete_request a.2 = true)
            (List.filter (fun a => complete_request a.2) arrivals)) as Hall.
  { apply Forall_forall. intros a Hin%list_elem_of_In%filter_In. tauto. }
  split; [|split].
  - apply Forall2_app; [done|].
    clear Hall.
    induction (List.filter (fun a => complete_request a.2) arrivals);
      cbn [map]; constructor; [reflexivity | done].
  - apply Forall_app. split; [done|].
    induction Hall; cbn [map]; constructor; [by apply audit_row_of_ok | done].
  - apply Forall_app. split; [done|].
    induction Hall; cbn [map]; constructor;
      [by apply message_row_of_ok | done].
Qed.

End Further.

(** * The further properties on the sample requests *)

Lemma rollback_discards_audit_row_witness :
  ∃ e,
    insertSMS_body (H := sample_externals) textless_obj empty_database
    = (Throw e,
       {| twilio_messages :=
            twilio_messages empty_database
            ++ [audit_row (H := sample_externals) textless_obj];
          sms := sms empty_database |})
    ∧ insertSMS (H := sample_externals) textless_obj empty_database
      = (Throw e, empty_database).
Proof.
  apply (rollback_discards_audit_row (E := sample_externals) textless_obj
           empty_database
           [("SmsMessageSid", JStr "SM123"); ("AccountSid", JStr "AC1");
            ("ApiVersion", JStr "2010-04-01"); ("From", JStr "+15551234567");
            ("To", JStr "+15557654321")]);
    vm_compute; reflexivity.
Defined.

Lemma handler_answers_iff_complete_witness :
  (∃ r payload,
     response (handler (H := sample_externals) sample_config
                 (sample_world salt_a) tokenless_request empty_database)
     = Responded r payload)
  ↔ complete_request tokenless_request = true.
Proof.
  apply (handler_answers_iff_complete (E := sample_externals) sample_config
           (sample_world salt_a) tokenless_request empty_database).
  vm_compute. reflexivity.
Defined.

Lemma stored_rows_carry_the_request_witness :
  ∃ a m,
    stored (handler (H := sample_externals) sample_config
              (sample_world salt_a) authentic_request empty_database)
    = {| twilio_messages := twilio_messages empty_database ++ [a];
         sms := sms empty_database ++ [m] |}
    ∧ TwilioMessages.twilio_signature a = SqlText "sig-secret"
    ∧ TwilioMessages.twilio_idempotency_token a = SqlText "tok-1"
    ∧ TwilioMessages.twilio_sms_message_sid a = SqlText "SM123"
    ∧ TwilioMessages.twilio_account_sid a = SqlText "AC1"
    ∧ TwilioMessages.twilio_api_version a = SqlText "2010-04-01"
    ∧ TwilioMessages.webhook_endpoint a
      = SqlText (WEBHOOK_ENDPOINT sample_config)
    ∧ Sms.sender m = SqlText "+15551234567"
    ∧ Sms.receiver m = SqlText "+15557654321"
    ∧ Sms.body m = SqlText "hi".
Proof.
  apply (stored_rows_carry_the_request (E := sample_externals) sample_config
           (sample_world salt_a) authentic_request empty_database);
    vm_compute; reflexivity.
Defined.

Lemma serve_keeps_database_consistent_witness :
  consistent
    (serve (H := sample_externals) sample_config sample_arrivals
       empty_database).2.
Proof.
  apply (serve_keeps_database_consistent (E := sample_externals)
           sample_config sample_arrivals empty_database).
  unfold consistent, empty_database. simpl. repeat split; constructor.
Defined.

Lemma status_answers_are_backed_by_rows_witness :
  ∃ a m,
    stored (handler (H := sample_externals) sample_config
              (sample_world salt_a) tampered_request empty_database)
    = {| twilio_messages := twilio_messages empty_database ++ [a];
         sms := sms empty_database ++ [m] |}
    ∧ ((400%Z = 200%Z ∧ TwilioMessages.is_authentic_request a = SqlReal 1%Q)
       ∨ (400%Z = 400%Z
          ∧ TwilioMessages.is_authentic_request a = SqlReal 0%Q)).
Proof.
  apply (status_answers_are_backed_by_rows (E := sample_externals)
           sample_config (sample_world salt_a) tampered_request
           empty_database
           {| content_type := "application/json"; code := Some 400%Z |}
           (JObj [("error", JStr "Invalid Twilio request found.")]) 400%Z);
    vm_compute; reflexivity.
Defined.
